(** * siig_switch: acquisition, use and release of the KVM switch over libusb

    A shallow embedding of [siig_switch.cpp].  The program is a sequence of
    calls into libusb whose results decide the control flow, so it is
    modelled as a computation over the chronological list of calls it has
    made (the trace), against an environment that supplies the answer of
    every libusb call.  C++ exceptions ([throw rc]) are an outcome of the
    computation; the trace survives a throw, which is what makes leaked
    resources visible. *)

From Stdlib Require Import ZArith List String Ascii Bool Lia.
From Stdlib Require Import Strings.Byte DecimalString.
Import ListNotations.
Local Open Scope string_scope.
Local Open Scope list_scope.
Local Open Scope Z_scope.

(** ** libusb data, as far as the program looks at it *)

(** [libusb_context*], [libusb_device*] and [libusb_device_handle*] are opaque
    pointers: an address, with [None] for [nullptr] where the program tests or
    initialises one. *)
Definition libusb_context := Z.
Definition libusb_device := Z.
Definition libusb_device_handle := Z.

(** [struct libusb_device_descriptor]: the two [uint16_t] fields that are read. *)
Record libusb_device_descriptor := {
  idVendor : Z;
  idProduct : Z
}.

Record libusb_interface_descriptor := {
  bInterfaceNumber : Z
}.

Record libusb_interface := {
  altsetting : list libusb_interface_descriptor;
  num_altsetting : Z
}.

Record libusb_config_descriptor := {
  bNumInterfaces : Z;
  interface : list libusb_interface
}.

(** Constants of [libusb.h] used by [send_request]. *)
Definition LIBUSB_ENDPOINT_OUT : Z := 0x00.
Definition LIBUSB_REQUEST_TYPE_CLASS : Z := Z.shiftl 0x01 5.
Definition LIBUSB_RECIPIENT_INTERFACE : Z := 0x01.

(** ** Integer conversions written out *)

Definition INT_MIN : Z := - 2 ^ 31.
Definition INT_MAX : Z := 2 ^ 31 - 1.
Definition is_int (z : Z) : Prop := INT_MIN <= z <= INT_MAX.

(** [size_t(rc)] on an LP64 target. *)
Definition to_size_t (z : Z) : Z := z mod 2 ^ 64.
(** Implicit conversion of an argument to a [uint8_t] or [uint16_t] parameter. *)
Definition to_uint8 (z : Z) : Z := z mod 2 ^ 8.
Definition to_uint16 (z : Z) : Z := z mod 2 ^ 16.
(** Implicit conversion of an argument to an [unsigned int] parameter. *)
Definition to_uint (z : Z) : Z := z mod 2 ^ 32.

(** [sizeof] of an [unsigned char] array. *)
Definition sizeof (data : list byte) : Z := Z.of_nat (List.length data).

(** [%d], [%u] and [%zu] of [fprintf], and the newline of a format string. *)
Definition decimal (z : Z) : string := NilZero.string_of_int (Z.to_int z).
Definition LF : string := String (ascii_of_nat 10) EmptyString.

(** ** Calls, traces and the environment *)

(** Every call the program makes that is visible outside it: the libusb
    entry points with their arguments, and the lines written to stderr. *)
Inductive call : Type :=
| Init
| Exit (ctx : option libusb_context)
| GetDeviceList (ctx : option libusb_context)
| FreeDeviceList (unref_devices : Z)
| GetDeviceDescriptor (dev : libusb_device)
| RefDevice (dev : libusb_device)
| UnrefDevice (dev : libusb_device)
| GetActiveConfigDescriptor (dev : libusb_device)
| FreeConfigDescriptor (config : libusb_config_descriptor)
| Open (dev : libusb_device)
| Close (handle : option libusb_device_handle)
| KernelDriverActive (handle : option libusb_device_handle) (interface_number : Z)
| DetachKernelDriver (handle : option libusb_device_handle) (interface_number : Z)
| AttachKernelDriver (handle : option libusb_device_handle) (interface_number : Z)
| ClaimInterface (handle : option libusb_device_handle) (interface_number : Z)
| ControlTransfer (handle : option libusb_device_handle)
    (bmRequestType bRequest wValue wIndex : Z)
    (data : list byte) (wLength : Z) (timeout : Z)
| Stderr (text : string).

Definition trace := list call.

(** What the USB subsystem answers.  The bus is a snapshot (device list and
    descriptors do not change during the run); the status of an operation on
    the device may depend on everything done so far, so that a transfer can
    fail once and succeed when repeated. *)
Record usb_env := {
  (** [libusb_init(&ctx)]: return code and the value left in [ctx]. *)
  env_init : Z * option libusb_context;
  (** [libusb_get_device_list]: the count returned and the array. *)
  env_device_list : Z * list libusb_device;
  (** [libusb_get_device_descriptor]: return code and the contents of the
      caller's [descriptor] structure after the call, whatever the code. *)
  env_device_descriptor : libusb_device -> Z * libusb_device_descriptor;
  (** [libusb_get_active_config_descriptor]: return code and [*config]. *)
  env_config_descriptor : libusb_device -> Z * libusb_config_descriptor;
  (** [libusb_open(device, &handle)]: return code and the value of [handle]
      after the call. *)
  env_open : libusb_device -> Z * option libusb_device_handle;
  (** Return code of every other call, given the calls made before it. *)
  env_status : trace -> call -> Z;
  (** [libusb_error_name]. *)
  env_error_name : Z -> string
}.

(** ** Computations *)

(** The two types the program throws: [throw rc] with [int rc], and
    [throw device_count] with [ssize_t device_count]. *)
Inductive exn : Type :=
| ThrowInt (rc : Z)
| ThrowSsize (count : Z).

(** [Undefined] is an array read outside the array. *)
Inductive outcome (A : Type) : Type :=
| Return (a : A)
| Throw (e : exn)
| Undefined.
Arguments Return {A} a.
Arguments Throw {A} e.
Arguments Undefined {A}.

Definition M (A : Type) : Type := trace -> outcome A * trace.

Definition ret {A} (a : A) : M A := fun t => (Return a, t).

Definition bind {A B} (m : M A) (k : A -> M B) : M B :=
  fun t =>
    match m t with
    | (Return a, t') => k a t'
    | (Throw e, t') => (Throw e, t')
    | (Undefined, t') => (Undefined, t')
    end.

Definition throw {A} (e : exn) : M A := fun t => (Throw e, t).

Definition undefined {A} : M A := fun t => (Undefined, t).

(** [try { body } catch (int e) { handler }]: only an [int] is caught. *)
Definition try_catch_int {A} (body : M A) (handler : Z -> M A) : M A :=
  fun t =>
    match body t with
    | (Throw (ThrowInt rc), t') => handler rc t'
    | r => r
    end.

(** A call whose answer does not depend on the trace. *)
Definition emit {A} (c : call) (answer : A) : M A :=
  fun t => (Return answer, t ++ [c]).

Declare Scope usb_scope.
Delimit Scope usb_scope with usb.
Notation "x <- m ;; k" := (bind m (fun x => k))
  (at level 61, m at next level, right associativity) : usb_scope.
Notation "' p <- m ;; k" := (bind m (fun x => let p := x in k))
  (at level 61, p pattern, m at next level, right associativity) : usb_scope.
Notation "m ;; k" := (bind m (fun _ => k))
  (at level 61, right associativity) : usb_scope.
Local Open Scope usb_scope.

(** [when c m] is [if (c) { m }]. *)
Definition when (c : bool) (m : M unit) : M unit := if c then m else ret tt.

Definition is_nonnull {A} (p : option A) : bool :=
  match p with Some _ => true | None => false end.

Section Program.

Variable env : usb_env.

(** *** libusb entry points *)

Definition status (c : call) : M Z :=
  fun t => (Return (env_status env t c), t ++ [c]).

Definition fprintf_stderr (text : string) : M unit := emit (Stderr text) tt.

Definition libusb_init : M (Z * option libusb_context) := emit Init (env_init env).
Definition libusb_exit (ctx : option libusb_context) : M unit := emit (Exit ctx) tt.
Definition libusb_get_device_list (ctx : option libusb_context)
  : M (Z * list libusb_device) := emit (GetDeviceList ctx) (env_device_list env).
Definition libusb_free_device_list (unref_devices : Z) : M unit :=
  emit (FreeDeviceList unref_devices) tt.
Definition libusb_get_device_descriptor (dev : libusb_device)
  : M (Z * libusb_device_descriptor) :=
  emit (GetDeviceDescriptor dev) (env_device_descriptor env dev).
Definition libusb_ref_device (dev : libusb_device) : M unit := emit (RefDevice dev) tt.
Definition libusb_unref_device (dev : libusb_device) : M unit := emit (UnrefDevice dev) tt.
Definition libusb_get_active_config_descriptor (dev : libusb_device)
  : M (Z * libusb_config_descriptor) :=
  emit (GetActiveConfigDescriptor dev) (env_config_descriptor env dev).
Definition libusb_free_config_descriptor (config : libusb_config_descriptor) : M unit :=
  emit (FreeConfigDescriptor config) tt.
Definition libusb_open (dev : libusb_device) : M (Z * option libusb_device_handle) :=
  emit (Open dev) (env_open env dev).
Definition libusb_close (handle : option libusb_device_handle) : M unit :=
  emit (Close handle) tt.
Definition libusb_kernel_driver_active handle interface_number : M Z :=
  status (KernelDriverActive handle interface_number).
Definition libusb_detach_kernel_driver handle interface_number : M Z :=
  status (DetachKernelDriver handle interface_number).
Definition libusb_attach_kernel_driver handle interface_number : M Z :=
  status (AttachKernelDriver handle interface_number).
Definition libusb_claim_interface handle interface_number : M Z :=
  status (ClaimInterface handle interface_number).
Definition libusb_control_transfer handle bmRequestType bRequest wValue wIndex
    (data : list byte) (wLength : Z) (timeout : Z) : M Z :=
  status (ControlTransfer handle (to_uint8 bmRequestType) (to_uint8 bRequest) (to_uint16 wValue)
            (to_uint16 wIndex) data (to_uint16 wLength) (to_uint timeout)).

(** *** find_devices *)

(** The body of [for (ssize_t i = 0; i < device_count; ++i)], with [n] the
    number of iterations still to run. *)
Fixpoint find_devices_loop (devices : list libusb_device) (vendor_id product_id : Z)
    (i : Z) (n : nat) (result : list libusb_device) : M (list libusb_device) :=
  match n with
  | O => ret result
  | S n' =>
    match nth_error devices (Z.to_nat i) with
    | None => undefined
    | Some device =>
      '(_, descriptor) <- libusb_get_device_descriptor device ;;
      if (idVendor descriptor =? vendor_id) && (idProduct descriptor =? product_id)
      then
        libusb_ref_device device ;;
        find_devices_loop devices vendor_id product_id (i + 1) n' (result ++ [device])
      else
        find_devices_loop devices vendor_id product_id (i + 1) n' result
    end
  end.

Definition find_devices (ctx : option libusb_context) (vendor_id product_id : Z)
  : M (list libusb_device) :=
  '(device_count, devices) <- libusb_get_device_list ctx ;;
  if device_count <? 0 then throw (ThrowSsize device_count)
  else
    result <- find_devices_loop devices vendor_id product_id 0
                (Z.to_nat device_count) [] ;;
    libusb_free_device_list 1 ;;
    ret result.

(** *** class kvm_device *)

Record kvm_device := {
  device : libusb_device;
  handle : option libusb_device_handle;
  interface_number : Z;
  detached_kernel : bool
}.

Definition CONTROL_REQUEST_TYPE_OUT : Z :=
  Z.lor (Z.lor LIBUSB_ENDPOINT_OUT LIBUSB_REQUEST_TYPE_CLASS) LIBUSB_RECIPIENT_INTERFACE.
Definition HID_SET_REPORT : Z := 0x09.
Definition HID_REPORT_TYPE_OUTPUT : Z := 0x02.

(** The default argument [timeout_ms = 100]. *)
Definition default_timeout_ms : Z := 100.

Definition send_request (this : kvm_device) (data : list byte) (length : Z)
    (timeout_ms : Z) : M Z :=
  rc <- libusb_control_transfer (handle this) CONTROL_REQUEST_TYPE_OUT HID_SET_REPORT
          (Z.lor (Z.shiftl HID_REPORT_TYPE_OUTPUT 8) 0x00) (interface_number this)
          data length timeout_ms ;;
  if rc <? 0 then
    fprintf_stderr ("failed to write data in send_request" ++ LF)%string ;;
    ret rc
  else if negb (to_size_t rc =? length) then
    fprintf_stderr ("libusb_control_transfer returned short, wrote " ++ decimal rc
                    ++ ", expected " ++ decimal length ++ LF)%string ;;
    ret (-1)
  else ret 0.

Definition initialize_data : list byte := [x03; x00; x00; x00; x00].

Definition initialize (this : kvm_device) : M unit :=
  rc <- send_request this initialize_data (sizeof initialize_data) default_timeout_ms ;;
  if rc <? 0 then throw (ThrowInt rc) else ret tt.

Definition trigger_data : list byte := [x03; x5c; x04; x00; x00].

Definition trigger (this : kvm_device) : M Z :=
  send_request this trigger_data (sizeof trigger_data) default_timeout_ms.

(** The code under the label [fail:] of the constructor. *)
Definition kvm_device_fail (this : kvm_device) (rc : Z) : M kvm_device :=
  when (detached_kernel this)
    (_ <- libusb_attach_kernel_driver (handle this) (interface_number this) ;; ret tt) ;;
  when (is_nonnull (handle this)) (libusb_close (handle this)) ;;
  libusb_unref_device (device this) ;;
  throw (ThrowInt rc).

(** From [libusb_claim_interface] to the end of the constructor. *)
Definition kvm_device_claim (this : kvm_device) : M kvm_device :=
  rc <- libusb_claim_interface (handle this) (interface_number this) ;;
  if rc <? 0 then
    fprintf_stderr ("libusb_claim_interface failed in kvm_device constructor" ++ LF)%string ;;
    kvm_device_fail this rc
  else
    initialize this ;;
    ret this.

(** [kvm_device(libusb_device* device, int interface_number)].  The members
    start as [handle = nullptr] and [detached_kernel = false]. *)
Definition kvm_device_ctor (device0 : libusb_device) (interface_number0 : Z)
  : M kvm_device :=
  '(rc, handle0) <- libusb_open device0 ;;
  let this := {| device := device0; handle := handle0;
                 interface_number := interface_number0; detached_kernel := false |} in
  if rc <? 0 then
    fprintf_stderr ("libusb_open failed in kvm_device constructor" ++ LF)%string ;;
    libusb_unref_device device0 ;;
    throw (ThrowInt rc)
  else
    rc <- libusb_kernel_driver_active (handle this) interface_number0 ;;
    if rc <? 0 then
      fprintf_stderr
        ("libusb_kernel_driver_active failed in kvm_device constructor" ++ LF)%string ;;
      kvm_device_fail this rc
    else if negb (rc =? 0) then
      rc <- libusb_detach_kernel_driver (handle this) interface_number0 ;;
      if rc <? 0 then kvm_device_fail this rc
      else
        kvm_device_claim {| device := device0; handle := handle0;
                            interface_number := interface_number0;
                            detached_kernel := true |}
    else kvm_device_claim this.

(** [~kvm_device()]. *)
Definition kvm_device_dtor (this : kvm_device) : M unit :=
  when (detached_kernel this)
    (_ <- libusb_attach_kernel_driver (handle this) (interface_number this) ;; ret tt) ;;
  libusb_close (handle this) ;;
  libusb_unref_device (device this).

Definition vendor_id : Z := 0x2101.
Definition product_id : Z := 0x1406.

Definition target_interface : nat := 1.

(** [kvm_device::find_device]; [None] is the null [unique_ptr]. *)
Definition find_device (ctx : option libusb_context) : M (option kvm_device) :=
  devices <- find_devices ctx vendor_id product_id ;;
  if (List.length devices =? 0)%nat then
    fprintf_stderr ("failed to find a connected KVM device" ++ LF)%string ;;
    ret None
  else if (1 <? List.length devices)%nat then
    fprintf_stderr ("found multiple connected KVM devices" ++ LF)%string ;;
    ret None
  else
    match nth_error devices 0 with
    | None => undefined
    | Some device0 =>
      '(rc, config) <- libusb_get_active_config_descriptor device0 ;;
      if negb (rc =? 0) then
        fprintf_stderr ("failed to get active config descriptor: "
                        ++ env_error_name env rc)%string ;;
        ret None
      else if negb (bNumInterfaces config =? 2) then
        fprintf_stderr ("unexpected number of interfaces: "
                        ++ decimal (bNumInterfaces config) ++ ", expected 2")%string ;;
        ret None
      else
        match nth_error (interface config) target_interface with
        | None => undefined
        | Some interfaces =>
          if negb (num_altsetting interfaces =? 1) then
            fprintf_stderr ("unexpected number of alternate interfaces: "
                            ++ decimal (num_altsetting interfaces)
                            ++ ", expected 1")%string ;;
            ret None
          else
            match nth_error (altsetting interfaces) 0 with
            | None => undefined
            | Some alt =>
              let interface_number0 := bInterfaceNumber alt in
              libusb_free_config_descriptor config ;;
              kvm <- kvm_device_ctor device0 interface_number0 ;;
              ret (Some kvm)
            end
        end
    end.

(** *** main *)

(** [main] returns the exit code.  [libusb_init] is a C function and cannot
    throw, so the [try] block is entered in the model after it; the
    [return 1] on its failure leaves [main] at once, as in the source.  The
    [unique_ptr] is destroyed at the end of the [try] block.  An outcome
    [Throw] of [main] is an exception nothing catches. *)
Definition main : M Z :=
  '(init_rc, ctx) <- libusb_init ;;
  if negb (init_rc =? 0) then
    fprintf_stderr ("error: failed to initialize libusb" ++ LF)%string ;;
    ret 1
  else
    rc <- try_catch_int
            (kvm <- find_device ctx ;;
             match kvm with
             | Some k =>
               _ <- trigger k ;;
               kvm_device_dtor k ;;
               ret 0
             | None => ret 1
             end)
            (fun libusb_error =>
               when (negb (libusb_error =? 0))
                 (fprintf_stderr ("libusb error: " ++ env_error_name env libusb_error
                                  ++ LF)%string) ;;
               ret 1) ;;
    when (is_nonnull ctx) (libusb_exit ctx) ;;
    ret rc.

End Program.

Definition is_control_transfer (c : call) : bool :=
  match c with ControlTransfer _ _ _ _ _ _ _ _ => true | _ => false end.

(** ** Concrete buses *)

Module Scenario.

Definition kvm_descriptor : libusb_device_descriptor :=
  {| idVendor := 0x2101; idProduct := 0x1406 |}.

Definition hub_descriptor : libusb_device_descriptor :=
  {| idVendor := 0x1d6b; idProduct := 0x0002 |}.

(** The expected topology; the target interface carries number 3, not its
    index. *)
Definition kvm_config : libusb_config_descriptor :=
  {| bNumInterfaces := 2;
     interface :=
       [ {| altsetting := [ {| bInterfaceNumber := 0 |} ]; num_altsetting := 1 |};
         {| altsetting := [ {| bInterfaceNumber := 3 |} ]; num_altsetting := 1 |} ] |}.

(** A device revision with a third interface. *)
Definition wide_config : libusb_config_descriptor :=
  {| bNumInterfaces := 3;
     interface :=
       [ {| altsetting := [ {| bInterfaceNumber := 0 |} ]; num_altsetting := 1 |};
         {| altsetting := [ {| bInterfaceNumber := 1 |} ]; num_altsetting := 1 |};
         {| altsetting := [ {| bInterfaceNumber := 2 |} ]; num_altsetting := 1 |} ] |}.

(** A device revision whose target interface has two alternate settings. *)
Definition alt_config : libusb_config_descriptor :=
  {| bNumInterfaces := 2;
     interface :=
       [ {| altsetting := [ {| bInterfaceNumber := 0 |} ]; num_altsetting := 1 |};
         {| altsetting := [ {| bInterfaceNumber := 1 |}; {| bInterfaceNumber := 1 |} ];
            num_altsetting := 2 |} ] |}.

Definition error_name (rc : Z) : string :=
  if rc =? -1 then "LIBUSB_ERROR_IO"
  else if rc =? -3 then "LIBUSB_ERROR_ACCESS"
  else if rc =? -6 then "LIBUSB_ERROR_BUSY"
  else "**UNKNOWN**".

(** A bus with the given devices, on which devices 7 and 8 are KVM switches
    with configuration [config] and everything else is a hub; [libusb_open]
    gives handle [100 + device]; the other calls answer [st]. *)
Definition bus (devices : list libusb_device) (config : libusb_config_descriptor)
    (st : trace -> call -> Z) : usb_env :=
  {| env_init := (0, Some 1);
     env_device_list := (Z.of_nat (List.length devices), devices);
     env_device_descriptor := fun d =>
       (0, if (d =? 7) || (d =? 8) then kvm_descriptor else hub_descriptor);
     env_config_descriptor := fun _ => (0, config);
     env_open := fun d => (0, Some (100 + d));
     env_status := st;
     env_error_name := error_name |}.

(** Every call succeeds: no kernel driver bound, transfers complete. *)
Definition all_ok (_ : trace) (c : call) : Z :=
  match c with
  | ControlTransfer _ _ _ _ _ _ wLength _ => wLength
  | _ => 0
  end.

(** A kernel driver is bound and can be detached; transfers complete. *)
Definition driver_bound (_ : trace) (c : call) : Z :=
  match c with
  | KernelDriverActive _ _ => 1
  | ControlTransfer _ _ _ _ _ _ wLength _ => wLength
  | _ => 0
  end.

(** A kernel driver is bound and detached, the claim succeeds, and the
    device rejects every control transfer. *)
Definition transfers_rejected (_ : trace) (c : call) : Z :=
  match c with
  | KernelDriverActive _ _ => 1
  | ControlTransfer _ _ _ _ _ _ _ _ => -1
  | _ => 0
  end.

(** The first control transfer (the initialization) completes, the ones
    after it fail. *)
Definition trigger_rejected (t : trace) (c : call) : Z :=
  match c with
  | ControlTransfer _ _ _ _ _ _ wLength _ =>
    if existsb is_control_transfer t then -1 else wLength
  | _ => 0
  end.

(** A kernel driver is bound and detached, then the claim is refused. *)
Definition claim_refused (_ : trace) (c : call) : Z :=
  match c with
  | KernelDriverActive _ _ => 1
  | ClaimInterface _ _ => -6
  | ControlTransfer _ _ _ _ _ _ wLength _ => wLength
  | _ => 0
  end.

End Scenario.


(** ** Reading a trace *)

Definition is_open (c : call) : bool :=
  match c with Open _ => true | _ => false end.

Definition is_claim (c : call) : bool :=
  match c with ClaimInterface _ _ => true | _ => false end.

Definition is_ref_of (d : libusb_device) (c : call) : bool :=
  match c with RefDevice d' => d' =? d | _ => false end.

Definition is_unref (c : call) : bool :=
  match c with UnrefDevice _ => true | _ => false end.

(** The calls that give a resource back. *)
Definition is_teardown (c : call) : bool :=
  match c with
  | AttachKernelDriver _ _ | Close _ | UnrefDevice _ => true
  | _ => false
  end.

Definition count (p : call -> bool) (t : trace) : nat := List.length (filter p t).

(** The resources an acquisition attempt takes and has to give back. *)
Inductive resource : Type :=
| DeviceRef
| OpenHandle
| DetachedDriver
| ConfigDescriptor.

(** Whether call [c], made after the calls [before], took resource [r]: a
    reference is always taken; a handle, a configuration descriptor or a
    detached driver only when the call succeeded. *)
Definition acquires (env : usb_env) (before : trace) (c : call) (r : resource) : bool :=
  match r, c with
  | DeviceRef, RefDevice _ => true
  | OpenHandle, Open d => 0 <=? fst (env_open env d)
  | DetachedDriver, DetachKernelDriver _ _ => 0 <=? env_status env before c
  | ConfigDescriptor, GetActiveConfigDescriptor d => fst (env_config_descriptor env d) =? 0
  | _, _ => false
  end.

Definition releases (c : call) (r : resource) : bool :=
  match r, c with
  | DeviceRef, UnrefDevice _ => true
  | OpenHandle, Close _ => true
  | DetachedDriver, AttachKernelDriver _ _ => true
  | ConfigDescriptor, FreeConfigDescriptor _ => true
  | _, _ => false
  end.

(** Number of acquisitions of [r] among the calls [t] made after [before]. *)
Fixpoint acquired (env : usb_env) (before t : trace) (r : resource) : nat :=
  match t with
  | [] => 0
  | c :: t' =>
    ((if acquires env before c r then 1 else 0) + acquired env (before ++ [c]) t' r)%nat
  end.

Definition released (t : trace) (r : resource) : nat :=
  count (fun c => releases c r) t.

(** ** Vocabulary of the statements *)

(** The comparison of [find_devices] on what the descriptor query left in the
    structure. *)
Definition descriptor_matches (env : usb_env) (vid pid : Z) (d : libusb_device) : bool :=
  let descriptor := snd (env_device_descriptor env d) in
  (idVendor descriptor =? vid) && (idProduct descriptor =? pid).

(** The calls of one iteration of the scan. *)
Definition scan_calls (env : usb_env) (vid pid : Z) (d : libusb_device) : trace :=
  GetDeviceDescriptor d
  :: (if descriptor_matches env vid pid d then [RefDevice d] else []).

(** The same bus, with other return codes of the descriptor query. *)
Definition with_descriptor_rc (env : usb_env) (rc : libusb_device -> Z) : usb_env :=
  {| env_init := env_init env;
     env_device_list := env_device_list env;
     env_device_descriptor := fun d => (rc d, snd (env_device_descriptor env d));
     env_config_descriptor := env_config_descriptor env;
     env_open := env_open env;
     env_status := env_status env;
     env_error_name := env_error_name env |}.

(** The lines written to stderr, in order. *)
Definition stderr_lines (t : trace) : list string :=
  flat_map (fun c => match c with Stderr text => [text] | _ => [] end) t.

(** Whether [text] contains the decimal writing of [z]. *)
Definition mentions (text : string) (z : Z) : bool :=
  match index 0 (decimal z) text with Some _ => true | None => false end.

(** The transfer [send_request] issues: host-to-device, class, interface
    recipient (0x21); Set Report (0x09); report type Output, report id 0
    (0x0200); addressed to the interface of the session. *)
Definition set_report_call (this : kvm_device) (data : list byte) (length timeout : Z)
  : call :=
  ControlTransfer (handle this) 0x21 0x09 0x0200 (to_uint16 (interface_number this))
    data (to_uint16 length) (to_uint timeout).

Definition write_failed_line : string :=
  ("failed to write data in send_request" ++ LF)%string.

Definition short_write_line (rc length : Z) : string :=
  ("libusb_control_transfer returned short, wrote " ++ decimal rc
   ++ ", expected " ++ decimal length ++ LF)%string.

Definition interfaces_message (config : libusb_config_descriptor) : string :=
  ("unexpected number of interfaces: " ++ decimal (bNumInterfaces config)
   ++ ", expected 2")%string.

Definition altsetting_message (itf : libusb_interface) : string :=
  ("unexpected number of alternate interfaces: " ++ decimal (num_altsetting itf)
   ++ ", expected 1")%string.

(** The lines the constructor and [main] write. *)
Definition open_failed_line : string :=
  ("libusb_open failed in kvm_device constructor" ++ LF)%string.

Definition query_failed_line : string :=
  ("libusb_kernel_driver_active failed in kvm_device constructor" ++ LF)%string.

Definition claim_failed_line : string :=
  ("libusb_claim_interface failed in kvm_device constructor" ++ LF)%string.

Definition libusb_error_line (env : usb_env) (rc : Z) : string :=
  ("libusb error: " ++ env_error_name env rc ++ LF)%string.

(** [if (handle) libusb_close(handle)] and [if (ctx) libusb_exit(ctx)], as
    calls. *)
Definition close_calls (h : option libusb_device_handle) : trace :=
  if is_nonnull h then [Close h] else [].

Definition exit_calls (ctx : option libusb_context) : trace :=
  if is_nonnull ctx then [Exit ctx] else [].

(** The calls of the destructor of session [this]. *)
Definition dtor_calls (this : kvm_device) : trace :=
  (if detached_kernel this
   then [AttachKernelDriver (handle this) (interface_number this)] else [])
  ++ [Close (handle this); UnrefDevice (device this)].

(** The calls of a complete scan by [find_devices]. *)
Definition scan_trace (env : usb_env) (ctx : option libusb_context) (vid pid : Z)
    (devices : list libusb_device) : trace :=
  GetDeviceList ctx :: flat_map (scan_calls env vid pid) devices ++ [FreeDeviceList 1].

(** ** The scan of [find_devices] *)

Section Locator.

Variable env : usb_env.

Lemma find_devices_loop_scan (vid pid : Z) (rest : list libusb_device) :
  forall (pre result : list libusb_device) (t : trace),
    find_devices_loop env (pre ++ rest) vid pid (Z.of_nat (List.length pre))
      (List.length rest) result t
    = (Return (result ++ filter (descriptor_matches env vid pid) rest),
       t ++ flat_map (scan_calls env vid pid) rest).
Proof.
  induction rest as [|d rest IH]; intros pre result t.
  - simpl. unfold ret. now rewrite !app_nil_r.
  - cbn [List.length find_devices_loop].
    rewrite Nat2Z.id, nth_error_app2 by apply Nat.le_refl.
    rewrite Nat.sub_diag. cbn [nth_error].
    unfold bind at 1, libusb_get_device_descriptor, emit.
    assert (Hnext : Z.of_nat (List.length pre) + 1 = Z.of_nat (List.length (pre ++ [d])))
      by (rewrite length_app; cbn [List.length]; lia).
    assert (Hsplit : pre ++ d :: rest = (pre ++ [d]) ++ rest)
      by (now rewrite <- app_assoc).
    rewrite Hnext, Hsplit.
    destruct (env_device_descriptor env d) as [rc descriptor] eqn:Hdesc.
    cbn [flat_map filter]. unfold scan_calls, descriptor_matches.
    rewrite Hdesc. cbn [snd].
    destruct ((idVendor descriptor =? vid) && (idProduct descriptor =? pid)).
    + unfold bind at 1, libusb_ref_device, emit.
      rewrite IH. f_equal; rewrite <- ?app_assoc; reflexivity.
    + rewrite IH. f_equal. rewrite <- app_assoc. reflexivity.
Qed.

(** With a consistent count, [find_devices] is a filter of the device list. *)
Lemma find_devices_filter ctx vid pid (t : trace) (devices : list libusb_device) :
  env_device_list env = (Z.of_nat (List.length devices), devices) ->
  find_devices env ctx vid pid t
  = (Return (filter (descriptor_matches env vid pid) devices),
     t ++ GetDeviceList ctx :: flat_map (scan_calls env vid pid) devices ++ [FreeDeviceList 1]).
Proof.
  intros Hlist. unfold find_devices, bind at 1, libusb_get_device_list, emit.
  rewrite Hlist.
  destruct (Z.ltb_spec (Z.of_nat (List.length devices)) 0) as [Hneg|_]; [lia|].
  unfold bind at 1. rewrite Nat2Z.id.
  pose proof (find_devices_loop_scan vid pid devices [] [] (t ++ [GetDeviceList ctx]))
    as Hscan.
  cbn [app List.length Z.of_nat] in Hscan. rewrite Hscan. unfold bind, libusb_free_device_list, emit, ret.
  f_equal. rewrite <- !app_assoc. reflexivity.
Qed.

Lemma find_devices_negative ctx vid pid (t : trace) count0 devices :
  env_device_list env = (count0, devices) ->
  count0 < 0 ->
  find_devices env ctx vid pid t = (Throw (ThrowSsize count0), t ++ [GetDeviceList ctx]).
Proof.
  intros Hlist Hneg. unfold find_devices, bind, libusb_get_device_list, emit.
  rewrite Hlist. destruct (Z.ltb_spec count0 0); [reflexivity|lia].
Qed.

Lemma count_scan_ref vid pid d (devices : list libusb_device) :
  count (is_ref_of d) (flat_map (scan_calls env vid pid) devices)
  = count_occ Z.eq_dec (filter (descriptor_matches env vid pid) devices) d.
Proof.
  unfold count. induction devices as [|x devices IH]; [reflexivity|].
  cbn [flat_map filter]. unfold scan_calls at 1.
  destruct (descriptor_matches env vid pid x); cbn [app filter is_ref_of].
  - destruct (Z.eqb_spec x d) as [->|Hne].
    + cbn [List.length]. rewrite IH. simpl. destruct (Z.eq_dec d d); congruence.
    + rewrite IH. simpl. destruct (Z.eq_dec x d); congruence.
  - exact IH.
Qed.

Lemma count_scan_unref vid pid (devices : list libusb_device) :
  count is_unref (flat_map (scan_calls env vid pid) devices) = 0%nat.
Proof.
  unfold count. induction devices as [|x devices IH]; [reflexivity|].
  cbn [flat_map]. unfold scan_calls at 1.
  destruct (descriptor_matches env vid pid x); cbn [app filter is_unref]; exact IH.
Qed.

End Locator.

Lemma count_app (p : call -> bool) (a b : trace) :
  count p (a ++ b) = (count p a + count p b)%nat.
Proof. unfold count. now rewrite filter_app, length_app. Qed.

Lemma scan_calls_no_open env vid pid (devices : list libusb_device) (p : call -> bool) :
  (forall d, p (GetDeviceDescriptor d) = false) ->
  (forall d, p (RefDevice d) = false) ->
  existsb p (flat_map (scan_calls env vid pid) devices) = false.
Proof.
  intros Hget Href. induction devices as [|x devices IH]; [reflexivity|].
  cbn [flat_map]. rewrite existsb_app, IH, orb_false_r.
  unfold scan_calls. destruct (descriptor_matches env vid pid x); simpl;
    now rewrite ?Hget, ?Href.
Qed.

Lemma filter_none {A} (p : A -> bool) (l : list A) :
  (forall x, In x l -> p x = false) -> filter p l = [].
Proof.
  induction l as [|x l IH]; intros Hnone; [reflexivity|].
  cbn [filter]. rewrite (Hnone x (or_introl eq_refl)).
  apply IH. intros y Hy. apply Hnone. now right.
Qed.

Lemma find_devices_loop_ignores_rc env rc devices vid pid (n : nat) :
  forall i result t,
    find_devices_loop (with_descriptor_rc env rc) devices vid pid i n result t
    = find_devices_loop env devices vid pid i n result t.
Proof.
  induction n as [|n IH]; intros i result t; [reflexivity|].
  cbn [find_devices_loop].
  destruct (nth_error devices (Z.to_nat i)) as [d|]; [|reflexivity].
  unfold bind at 1 3, libusb_get_device_descriptor, emit.
  cbn [with_descriptor_rc env_device_descriptor].
  destruct (env_device_descriptor env d) as [rc0 descriptor]. cbn [snd].
  destruct ((idVendor descriptor =? vid) && (idProduct descriptor =? pid)).
  - unfold bind, libusb_ref_device, emit. apply IH.
  - apply IH.
Qed.

(** ** Claims about the locator *)

(** C8. [find_devices] returns exactly the attached devices whose descriptor
    carries the vendor and product identifiers asked for, in enumeration
    order (the empty sequence when none does), and takes one reference on
    each of them and none on the others, never giving one back; when the
    enumeration reports a negative count it throws that count right after
    the enumeration call, before any reference is taken and with no result. *)
Theorem find_devices_returns_matches env ctx vid pid (t : trace) count0 devices :
  env_device_list env = (count0, devices) ->
  (0 <= count0 -> count0 = Z.of_nat (List.length devices)) ->
  (0 <= count0 ->
   exists calls,
     find_devices env ctx vid pid t
     = (Return (filter (descriptor_matches env vid pid) devices), t ++ calls)
     /\ (forall d, count (is_ref_of d) calls
                   = count_occ Z.eq_dec (filter (descriptor_matches env vid pid) devices) d)
     /\ count is_unref calls = 0%nat
     /\ ((forall d, In d devices -> descriptor_matches env vid pid d = false) ->
         filter (descriptor_matches env vid pid) devices = []))
  /\ (count0 < 0 ->
      find_devices env ctx vid pid t
      = (Throw (ThrowSsize count0), t ++ [GetDeviceList ctx])
      /\ acquired env t [GetDeviceList ctx] DeviceRef = 0%nat).
Proof.
  intros Hlist Hwf. split.
  - intros Hpos. rewrite (Hwf Hpos) in Hlist.
    eexists. split; [apply (find_devices_filter env ctx vid pid t devices Hlist)|].
    split; [|split].
    + intros d.
      change (GetDeviceList ctx :: ?l) with ([GetDeviceList ctx] ++ l).
      rewrite !count_app, count_scan_ref. unfold count. simpl. lia.
    + change (GetDeviceList ctx :: ?l) with ([GetDeviceList ctx] ++ l).
      rewrite !count_app, count_scan_unref. reflexivity.
    + apply filter_none.
  - intros Hneg. split; [|reflexivity].
    apply (find_devices_negative env ctx vid pid t count0 devices Hlist Hneg).
Qed.

Lemma find_devices_returns_matches_witness :
  let env := Scenario.bus [3; 7; 5; 8] Scenario.kvm_config Scenario.all_ok in
  exists calls,
    find_devices env (Some 1) 0x2101 0x1406 [] = (Return [7; 8], calls)
    /\ count (is_ref_of 7) calls = 1%nat
    /\ count (is_ref_of 5) calls = 0%nat.
Proof.
  intros env.
  destruct (find_devices_returns_matches env (Some 1) 0x2101 0x1406 [] 4 [3; 7; 5; 8])
    as [Hok _].
  - reflexivity.
  - reflexivity.
  - destruct Hok as [calls [Hrun [Href _]]]; [lia|].
    exists calls. split; [exact Hrun|].
    split; [exact (Href 7)|exact (Href 5)].
Defined.

(** C10. [find_devices] ignores the return code of the per-device descriptor
    query: its result and its calls are the same whatever those codes are,
    and a device whose query failed is returned exactly when the values
    left in the descriptor structure equal the identifiers asked for; the
    failure opens no error path ([find_devices] still returns). *)
Theorem find_devices_ignores_descriptor_rc env ctx vid pid (t : trace) :
  (forall rc, find_devices (with_descriptor_rc env rc) ctx vid pid t
              = find_devices env ctx vid pid t)
  /\ (forall devices d rc leftover,
        env_device_list env = (Z.of_nat (List.length devices), devices) ->
        env_device_descriptor env d = (rc, leftover) ->
        rc < 0 ->
        exists result calls,
          find_devices env ctx vid pid t = (Return result, t ++ calls)
          /\ (In d result <->
              In d devices /\ idVendor leftover = vid /\ idProduct leftover = pid)).
Proof.
  split.
  - intros rc. unfold find_devices, bind, libusb_get_device_list, emit.
    cbn [with_descriptor_rc env_device_list].
    destruct (env_device_list env) as [count0 devices].
    destruct (count0 <? 0); [reflexivity|].
    now rewrite find_devices_loop_ignores_rc.
  - intros devices d rc leftover Hlist Hdesc _.
    eexists. eexists. split; [apply (find_devices_filter env ctx vid pid t devices Hlist)|].
    rewrite filter_In. unfold descriptor_matches. rewrite Hdesc. cbn [snd].
    rewrite andb_true_iff, !Z.eqb_eq. tauto.
Qed.

Lemma find_devices_ignores_descriptor_rc_witness :
  let env := with_descriptor_rc
               (Scenario.bus [3; 7] Scenario.kvm_config Scenario.all_ok) (fun _ => -1) in
  exists result calls,
    find_devices env (Some 1) 0x2101 0x1406 [] = (Return result, calls)
    /\ (In 7 result <-> In 7 [3; 7] /\ 0x2101 = 0x2101 /\ 0x1406 = 0x1406).
Proof.
  intros env.
  destruct (find_devices_ignores_descriptor_rc env (Some 1) 0x2101 0x1406 [])
    as [_ Hfailed].
  destruct (Hfailed [3; 7] 7 (-1) Scenario.kvm_descriptor) as [result [calls H]].
  - reflexivity.
  - reflexivity.
  - reflexivity.
  - exists result, calls. exact H.
Defined.

(** ** Claims about the choice among the matches *)

(** C7. When the enumeration holds two or more devices carrying vendor
    identifier 0x2101 and product identifier 0x1406, or none, [find_device]
    returns no session: after the scan it only writes its message, and it
    opens no device. *)
Theorem find_device_refuses_ambiguity env ctx (t : trace) devices :
  env_device_list env = (Z.of_nat (List.length devices), devices) ->
  let matching := filter (descriptor_matches env 0x2101 0x1406) devices in
  (List.length matching = 0 \/ 2 <= List.length matching)%nat ->
  let text :=
    if (List.length matching =? 0)%nat
    then ("failed to find a connected KVM device" ++ LF)%string
    else ("found multiple connected KVM devices" ++ LF)%string in
  let calls :=
    GetDeviceList ctx :: flat_map (scan_calls env 0x2101 0x1406) devices
      ++ [FreeDeviceList 1; Stderr text] in
  find_device env ctx t = (Return None, t ++ calls)
  /\ existsb is_open calls = false.
Proof.
  intros Hlist matching Hcount text calls. split.
  - unfold find_device, bind at 1.
    rewrite (find_devices_filter env ctx vendor_id product_id t devices Hlist).
    change (filter (descriptor_matches env vendor_id product_id) devices) with matching.
    subst text calls.
    destruct (Nat.eqb_spec (List.length matching) 0) as [Hzero|Hnonzero].
    + unfold bind, fprintf_stderr, emit, ret. f_equal.
      rewrite <- !app_assoc. cbn [app]. now rewrite <- app_assoc.
    + destruct (Nat.ltb_spec 1 (List.length matching)) as [_|Hone]; [|lia].
      unfold bind, fprintf_stderr, emit, ret. f_equal.
      rewrite <- !app_assoc. cbn [app]. now rewrite <- app_assoc.
  - subst calls. cbn [existsb is_open]. rewrite existsb_app.
    rewrite scan_calls_no_open by reflexivity. reflexivity.
Qed.

Lemma find_device_refuses_ambiguity_witness :
  let env := Scenario.bus [3; 7; 8] Scenario.kvm_config Scenario.all_ok in
  find_device env (Some 1) []
  = (Return None,
     [GetDeviceList (Some 1); GetDeviceDescriptor 3; GetDeviceDescriptor 7; RefDevice 7;
      GetDeviceDescriptor 8; RefDevice 8; FreeDeviceList 1;
      Stderr ("found multiple connected KVM devices" ++ LF)%string]).
Proof.
  intros env.
  destruct (find_device_refuses_ambiguity env (Some 1) [] [3; 7; 8]) as [Hrun _].
  - reflexivity.
  - right. vm_compute. repeat constructor.
  - exact Hrun.
Defined.

(** ** The control transfer *)

Lemma send_request_run env this data length timeout (t : trace) :
  let c := set_report_call this data length timeout in
  let rc := env_status env t c in
  send_request env this data length timeout t
  = if rc <? 0 then (Return rc, t ++ [c; Stderr write_failed_line])
    else if negb (to_size_t rc =? length)
         then (Return (-1), t ++ [c; Stderr (short_write_line rc length)])
         else (Return 0, t ++ [c]).
Proof.
  intros c rc. unfold send_request, libusb_control_transfer, status, bind at 1.
  change (ControlTransfer _ _ _ _ _ _ _ _) with c.
  fold rc. destruct (rc <? 0).
  - unfold bind, fprintf_stderr, emit, ret. now rewrite <- app_assoc.
  - destruct (negb (to_size_t rc =? length)).
    + unfold bind, fprintf_stderr, emit, ret. now rewrite <- app_assoc.
    + reflexivity.
Qed.

Lemma to_size_t_of_count (rc : Z) : 0 <= rc -> is_int rc -> to_size_t rc = rc.
Proof.
  unfold is_int, INT_MAX, to_size_t. intros Hpos [_ Hmax].
  apply Z.mod_small. lia.
Qed.

(** C4, as the code has it.  [send_request] returns zero exactly when the
    transport reports a byte count equal to the payload length, and then
    writes nothing.  A negative result is returned as it is, with the fixed
    line "failed to write data in send_request", which carries no counts.
    Any other count, smaller or larger than the length, gives -1 with the
    line "libusb_control_transfer returned short, wrote <count>, expected
    <length>", which carries both counts. *)
Theorem send_request_exact_count env this data length timeout (t : trace) :
  let c := set_report_call this data length timeout in
  let rc := env_status env t c in
  is_int rc ->
  0 <= length < 2 ^ 64 ->
  exists r log,
    send_request env this data length timeout t = (Return r, t ++ c :: map Stderr log)
    /\ (r = 0 <-> rc = length)
    /\ (rc = length -> log = [])
    /\ (rc < 0 -> r = rc /\ log = [write_failed_line])
    /\ (0 <= rc -> rc <> length -> r = -1 /\ log = [short_write_line rc length]).
Proof.
  intros c rc Hint Hlen.
  pose proof (send_request_run env this data length timeout t) as Hrun.
  cbv zeta in Hrun. fold c rc in Hrun. rewrite Hrun.
  destruct (Z.ltb_spec rc 0) as [Hneg|Hpos].
  - exists rc, [write_failed_line]. repeat split; try lia; try reflexivity.
  - rewrite (to_size_t_of_count rc Hpos Hint).
    destruct (Z.eqb_spec rc length) as [Heq|Hne]; cbn [negb].
    + exists 0, []. repeat split; try lia; try reflexivity.
    + exists (-1), [short_write_line rc length].
      repeat split; try lia; try reflexivity.
Qed.

Lemma send_request_exact_count_witness :
  let env := Scenario.bus [7] Scenario.kvm_config (fun _ _ => 6) in
  let this := {| device := 7; handle := Some 107; interface_number := 3;
                 detached_kernel := false |} in
  exists r log,
    send_request env this trigger_data 5 100 []
    = (Return r, set_report_call this trigger_data 5 100 :: map Stderr log)
    /\ r = -1 /\ log = [short_write_line 6 5].
Proof.
  intros env this.
  destruct (send_request_exact_count env this trigger_data 5 100 [])
    as [r [log [Hrun [_ [_ [_ Hshort]]]]]].
  - vm_compute. split; discriminate.
  - lia.
  - exists r, log. split; [exact Hrun|]. apply Hshort.
    + vm_compute. discriminate.
    + vm_compute. discriminate.
Defined.

(** C4, the logging as the claim words it, fails: on a negative result (-1,
    for a payload of 5 bytes) the only line written names neither the
    observed nor the expected count, and on a short write (4 of 5 bytes) the
    line written names both. *)
Lemma send_request_log_counterexample :
  let this := {| device := 7; handle := Some 107; interface_number := 3;
                 detached_kernel := false |} in
  let failed := Scenario.bus [7] Scenario.kvm_config (fun _ _ => -1) in
  let short := Scenario.bus [7] Scenario.kvm_config (fun _ _ => 4) in
  let log_failed := stderr_lines (snd (send_request failed this trigger_data 5 100 [])) in
  let log_short := stderr_lines (snd (send_request short this trigger_data 5 100 [])) in
  log_failed = [("failed to write data in send_request" ++ LF)%string]
  /\ existsb (fun text => mentions text (-1) || mentions text 5) log_failed = false
  /\ log_short = [("libusb_control_transfer returned short, wrote 4, expected 5"
                   ++ LF)%string]
  /\ forallb (fun text => mentions text 4 && mentions text 5) log_short = true.
Proof. vm_compute. repeat split. Qed.

(** C9. [trigger] issues one HID Set Report transfer of type Output to the
    interface of the session, carrying the five bytes 03 5C 04 00 00.  It
    returns 0 when the transport reports 5 bytes and a non-zero value
    otherwise; in either case it calls nothing that gives a resource of the
    session back, and a second [trigger] on the same session issues the same
    transfer again and succeeds when that transfer does. *)
Theorem trigger_sends_fixed_payload env this (t : trace) :
  let c := ControlTransfer (handle this) 0x21 0x09 0x0200
             (to_uint16 (interface_number this)) [x03; x5c; x04; x00; x00] 5 100 in
  let rc := env_status env t c in
  is_int rc ->
  exists r log,
    trigger env this t = (Return r, t ++ c :: map Stderr log)
    /\ (rc = 5 -> r = 0 /\ log = [])
    /\ (rc <> 5 -> r <> 0)
    /\ existsb is_teardown (c :: map Stderr log) = false
    /\ (let t' := t ++ c :: map Stderr log in
        env_status env t' c = 5 -> trigger env this t' = (Return 0, t' ++ [c])).
Proof.
  intros c rc Hint.
  assert (Hrun : forall t0,
             trigger env this t0
             = if env_status env t0 c <? 0
               then (Return (env_status env t0 c), t0 ++ [c; Stderr write_failed_line])
               else if negb (to_size_t (env_status env t0 c) =? 5)
                    then (Return (-1),
                          t0 ++ [c; Stderr (short_write_line (env_status env t0 c) 5)])
                    else (Return 0, t0 ++ [c])).
  { intros t0. unfold trigger. rewrite send_request_run. reflexivity. }
  assert (Hretry : forall t0, env_status env t0 c = 5 ->
                              trigger env this t0 = (Return 0, t0 ++ [c])).
  { intros t0 H5. rewrite Hrun, H5. reflexivity. }
  rewrite Hrun. fold rc.
  destruct (Z.ltb_spec rc 0) as [Hneg|Hpos].
  - exists rc, [write_failed_line].
    repeat split; try lia; try reflexivity. apply Hretry.
  - rewrite (to_size_t_of_count rc Hpos Hint).
    destruct (Z.eqb_spec rc 5) as [Heq|Hne]; cbn [negb].
    + exists 0, []. repeat split; try lia; try reflexivity. apply Hretry.
    + exists (-1), [short_write_line rc 5].
      repeat split; try lia; try reflexivity. apply Hretry.
Qed.

Lemma trigger_sends_fixed_payload_witness :
  let env := Scenario.bus [7] Scenario.kvm_config Scenario.trigger_rejected in
  let this := {| device := 7; handle := Some 107; interface_number := 3;
                 detached_kernel := true |} in
  let c := ControlTransfer (Some 107) 0x21 0x09 0x0200 3 [x03; x5c; x04; x00; x00] 5 100 in
  exists r log,
    trigger env this [c] = (Return r, [c] ++ c :: map Stderr log) /\ r <> 0.
Proof.
  intros env this c.
  destruct (trigger_sends_fixed_payload env this [c]) as [r [log [Hrun [_ [Hfail _]]]]].
  - vm_compute. split; discriminate.
  - exists r, log. split; [exact Hrun|]. apply Hfail. vm_compute. discriminate.
Defined.

(** ** The session: construction and destruction *)

Ltac run_calls :=
  unfold kvm_device_fail, kvm_device_dtor, when, is_nonnull,
    libusb_open, libusb_close, libusb_unref_device, libusb_kernel_driver_active,
    libusb_detach_kernel_driver, libusb_attach_kernel_driver, libusb_claim_interface,
    libusb_get_active_config_descriptor, libusb_free_config_descriptor,
    fprintf_stderr, status, emit, bind, ret, throw;
  cbn [device handle interface_number detached_kernel].

Ltac tidy_trace := repeat first [rewrite <- app_assoc | progress (cbn [app])].

(** Closes a goal [run = (Return _, _) -> _] whose run ends in a throw. *)
Ltac thrown :=
  run_calls;
  repeat match goal with |- context [if ?b then _ else _] => destruct b end;
  let H := fresh in intro H; discriminate H.

(** The destructor reattaches the driver when the flag is set, closes the
    handle and gives the device reference back, in that order. *)
Lemma kvm_device_dtor_run env this (t : trace) :
  kvm_device_dtor env this t
  = (Return tt,
     t ++ (if detached_kernel this
           then [AttachKernelDriver (handle this) (interface_number this)] else [])
       ++ [Close (handle this); UnrefDevice (device this)]).
Proof.
  run_calls. destruct (detached_kernel this); tidy_trace; reflexivity.
Qed.

(** [initialize] either returns after its one transfer or throws. *)
Lemma initialize_run env this (t : trace) :
  let c := set_report_call this initialize_data 5 100 in
  (exists calls, initialize env this t = (Return tt, t ++ [c]) /\ calls = [c])
  \/ (exists rc text, initialize env this t = (Throw (ThrowInt rc), t ++ [c; Stderr text])
                      /\ rc < 0).
Proof.
  intros c. unfold initialize, bind.
  change (sizeof initialize_data) with 5. change default_timeout_ms with 100.
  rewrite send_request_run. fold c.
  destruct (Z.ltb_spec (env_status env t c) 0) as [Hneg|Hpos].
  - right. destruct (Z.ltb_spec (env_status env t c) 0); [|lia].
    exists (env_status env t c), write_failed_line. split; [reflexivity|assumption].
  - destruct (negb (to_size_t (env_status env t c) =? 5)).
    + right. exists (-1), (short_write_line (env_status env t c) 5).
      split; [reflexivity|lia].
    + left. exists [c]. split; reflexivity.
Qed.

(** What a constructor that returns has done. *)
Lemma kvm_device_ctor_returns env device0 ifn (t : trace) this t' :
  kvm_device_ctor env device0 ifn t = (Return this, t') ->
  let h := snd (env_open env device0) in
  let before := t ++ [Open device0] in
  let active := env_status env before (KernelDriverActive h ifn) in
  let detach := DetachKernelDriver h ifn in
  this = {| device := device0; handle := h; interface_number := ifn;
            detached_kernel := negb (active =? 0) |}
  /\ 0 <= active
  /\ (active <> 0 -> 0 <= env_status env (before ++ [KernelDriverActive h ifn]) detach)
  /\ t' = t ++ [Open device0; KernelDriverActive h ifn]
            ++ (if negb (active =? 0) then [detach] else [])
            ++ [ClaimInterface h ifn; set_report_call this initialize_data 5 100].
Proof.
  intros Hctor h before active detach. subst h before active detach.
  unfold kvm_device_ctor, bind at 1, libusb_open, emit in Hctor.
  destruct (env_open env device0) as [rc h]. cbn [snd].
  revert Hctor. destruct (rc <? 0); [thrown|].
  unfold bind at 1, libusb_kernel_driver_active, status.
  cbn [handle].
  destruct (Z.ltb_spec (env_status env (t ++ [Open device0]) (KernelDriverActive h ifn)) 0)
    as [Hneg|Hpos]; [thrown|].
  intros Hctor.
  assert (Hclaim : forall flag t0,
             kvm_device_claim env
               {| device := device0; handle := h; interface_number := ifn;
                  detached_kernel := flag |} t0 = (Return this, t') ->
             this = {| device := device0; handle := h; interface_number := ifn;
                       detached_kernel := flag |}
             /\ t' = t0 ++ [ClaimInterface h ifn; set_report_call this initialize_data 5 100]).
  { intros flag t0. unfold kvm_device_claim, bind at 1, libusb_claim_interface, status.
    cbn [handle interface_number].
    destruct (_ <? 0); [thrown|].
    unfold bind.
    destruct (initialize_run env
                {| device := device0; handle := h; interface_number := ifn;
                   detached_kernel := flag |} (t0 ++ [ClaimInterface h ifn]))
      as [[calls [Hinit _]]|[rc' [text [Hinit _]]]]; rewrite Hinit.
    - unfold ret. intros Heq. injection Heq as Hthis Htrace. subst this t'.
      split; [reflexivity|]. tidy_trace. reflexivity.
    - discriminate. }
  destruct (Z.eqb_spec (env_status env (t ++ [Open device0]) (KernelDriverActive h ifn)) 0)
    as [Hzero|Hactive]; cbn [negb] in *.
  - apply Hclaim in Hctor. destruct Hctor as [Hthis Htrace].
    repeat split; try assumption; try lia. rewrite Htrace. tidy_trace. reflexivity.
  - unfold bind at 1, libusb_detach_kernel_driver, status in Hctor.
    destruct (Z.ltb_spec
                (env_status env ((t ++ [Open device0]) ++ [KernelDriverActive h ifn])
                   (DetachKernelDriver h ifn)) 0)
      as [Hneg|Hdet]; [revert Hctor; thrown|].
    apply Hclaim in Hctor. destruct Hctor as [Hthis Htrace].
    repeat split; try assumption; try lia. rewrite Htrace. tidy_trace. reflexivity.
Qed.

(** C5. For a session the constructor returned, the detached-kernel flag is
    set exactly when the query reported a kernel driver bound to the target
    interface and the session detached it (successfully, or construction
    would have failed), and is clear exactly when none was bound and no
    detach was issued.  The destructor then reattaches the driver once when
    the flag is set and not at all when it is clear, and after that closes
    the handle and gives the device reference back. *)
Theorem detached_flag_tracks_detach env device0 ifn (t : trace) this t' :
  kvm_device_ctor env device0 ifn t = (Return this, t') ->
  let h := snd (env_open env device0) in
  let active := env_status env (t ++ [Open device0]) (KernelDriverActive h ifn) in
  let detach := DetachKernelDriver h ifn in
  exists calls,
    t' = t ++ calls
    /\ (detached_kernel this = true <->
        0 < active /\ In detach calls
        /\ 0 <= env_status env (t ++ [Open device0; KernelDriverActive h ifn]) detach)
    /\ (detached_kernel this = false <-> active = 0 /\ ~ In detach calls)
    /\ forall t2,
         kvm_device_dtor env this t2
         = (Return tt,
            t2 ++ (if detached_kernel this then [AttachKernelDriver h ifn] else [])
               ++ [Close h; UnrefDevice device0]).
Proof.
  intros Hctor h active detach.
  destruct (kvm_device_ctor_returns env device0 ifn t this t' Hctor)
    as [Hthis [Hpos [Hdet Htrace]]].
  fold h in Hthis, Hpos, Hdet, Htrace. fold active in Hthis, Hpos, Hdet, Htrace.
  fold detach in Hdet, Htrace.
  eexists. split; [exact Htrace|].
  assert (Hflag : detached_kernel this = negb (active =? 0)) by (now rewrite Hthis).
  assert (Hbefore : (t ++ [Open device0]) ++ [KernelDriverActive h ifn]
                    = t ++ [Open device0; KernelDriverActive h ifn])
    by (now rewrite <- app_assoc).
  rewrite Hbefore in Hdet.
  split; [|split].
  - rewrite Hflag. destruct (Z.eqb_spec active 0) as [Hzero|Hactive]; cbn [negb].
    + split; [discriminate|]. intros [Hlt _]. lia.
    + split; [|reflexivity]. intros _.
      split; [lia|]. split; [simpl; auto|]. apply Hdet. assumption.
  - rewrite Hflag. destruct (Z.eqb_spec active 0) as [Hzero|Hactive]; cbn [negb].
    + split; [|reflexivity]. intros _. split; [assumption|].
      simpl. intros [H|[H|[H|[H|[]]]]]; discriminate H.
    + split; [discriminate|]. intros [Hzero _]. contradiction.
  - intros t2. rewrite kvm_device_dtor_run. rewrite Hthis. reflexivity.
Qed.

Lemma detached_flag_tracks_detach_witness :
  let env := Scenario.bus [7] Scenario.kvm_config Scenario.driver_bound in
  let this := {| device := 7; handle := Some 107; interface_number := 3;
                 detached_kernel := true |} in
  kvm_device_dtor env this []
  = (Return tt, [AttachKernelDriver (Some 107) 3; Close (Some 107); UnrefDevice 7]).
Proof.
  intros env this.
  destruct (detached_flag_tracks_detach env 7 3 [] this
              [Open 7; KernelDriverActive (Some 107) 3; DetachKernelDriver (Some 107) 3;
               ClaimInterface (Some 107) 3;
               ControlTransfer (Some 107) 0x21 0x09 0x0200 3
                 [x03; x00; x00; x00; x00] 5 100])
    as [calls [_ [_ [_ Hdtor]]]].
  - reflexivity.
  - exact (Hdtor []).
Defined.

(** ** The topology gate *)

(** Runs [find_device] up to the read of the configuration descriptor, on a
    bus with the single match [d]. *)
Ltac enter_single_match d Hlist Hmatch Hconfig :=
  unfold find_device, bind at 1;
  rewrite (find_devices_filter _ _ vendor_id product_id _ _ Hlist);
  change vendor_id with 0x2101; change product_id with 0x1406;
  rewrite Hmatch;
  cbn [List.length Nat.eqb Nat.ltb Nat.leb];
  change (nth_error [d] 0%nat) with (Some d);
  unfold bind at 1, libusb_get_active_config_descriptor, emit;
  rewrite Hconfig; cbn [Z.eqb negb].

(** C6. Take a bus on which exactly one device, [d], carries the
    identifiers and whose active configuration can be read.  If the
    configuration does not have exactly 2 interfaces, or its interface at
    index 1 does not have exactly 1 alternate setting, [find_device] returns
    no session right after reading the configuration, with a message naming
    the offending count, and neither opens the device nor claims an
    interface.  If the topology is as expected, [find_device] frees the
    configuration and constructs the session with the [bInterfaceNumber] of
    that alternate setting: whatever the constructor does is what
    [find_device] does, and a session it returns carries that number. *)
Theorem topology_gate env ctx (t : trace) devices d config :
  env_device_list env = (Z.of_nat (List.length devices), devices) ->
  filter (descriptor_matches env 0x2101 0x1406) devices = [d] ->
  env_config_descriptor env d = (0, config) ->
  let scan := GetDeviceList ctx :: flat_map (scan_calls env 0x2101 0x1406) devices
                ++ [FreeDeviceList 1; GetActiveConfigDescriptor d] in
  (bNumInterfaces config <> 2 ->
   find_device env ctx t = (Return None, t ++ scan ++ [Stderr (interfaces_message config)])
   /\ existsb (fun c => is_open c || is_claim c)
        (scan ++ [Stderr (interfaces_message config)]) = false)
  /\ (forall itf,
        bNumInterfaces config = 2 ->
        nth_error (interface config) 1 = Some itf ->
        num_altsetting itf <> 1 ->
        find_device env ctx t = (Return None, t ++ scan ++ [Stderr (altsetting_message itf)])
        /\ existsb (fun c => is_open c || is_claim c)
             (scan ++ [Stderr (altsetting_message itf)]) = false)
  /\ (forall itf alt,
        bNumInterfaces config = 2 ->
        nth_error (interface config) 1 = Some itf ->
        num_altsetting itf = 1 ->
        nth_error (altsetting itf) 0 = Some alt ->
        find_device env ctx t
        = (match kvm_device_ctor env d (bInterfaceNumber alt)
                   (t ++ scan ++ [FreeConfigDescriptor config]) with
           | (Return this, t') => (Return (Some this), t')
           | (Throw e, t') => (Throw e, t')
           | (Undefined, t') => (Undefined, t')
           end)
        /\ forall this t',
             find_device env ctx t = (Return (Some this), t') ->
             interface_number this = bInterfaceNumber alt).
Proof.
  intros Hlist Hmatch Hconfig scan.
  assert (Hquiet : forall text,
             existsb (fun c => is_open c || is_claim c) (scan ++ [Stderr text]) = false).
  { intros text. subst scan. cbn [app existsb is_open is_claim orb].
    rewrite <- app_assoc, existsb_app.
    rewrite scan_calls_no_open by reflexivity. reflexivity. }
  assert (Htrace : forall tail,
             (t ++ GetDeviceList ctx :: flat_map (scan_calls env 0x2101 0x1406) devices
                ++ [FreeDeviceList 1]) ++ GetActiveConfigDescriptor d :: tail
             = t ++ scan ++ tail).
  { intros tail. subst scan. tidy_trace. reflexivity. }
  split; [|split].
  - intros Hnum. split; [|apply Hquiet].
    enter_single_match d Hlist Hmatch Hconfig.
    destruct (Z.eqb_spec (bNumInterfaces config) 2) as [|_]; [contradiction|].
    cbn [negb]. run_calls. rewrite <- app_assoc. cbn [app]. now rewrite Htrace.
  - intros itf Hnum Hitf Halt. split; [|apply Hquiet].
    enter_single_match d Hlist Hmatch Hconfig.
    rewrite Hnum. cbn [Z.eqb Pos.eqb negb]. unfold target_interface. rewrite Hitf.
    destruct (Z.eqb_spec (num_altsetting itf) 1) as [|_]; [contradiction|].
    cbn [negb]. run_calls. rewrite <- app_assoc. cbn [app]. now rewrite Htrace.
  - intros itf alt Hnum Hitf Halt Hfirst.
    assert (Hrun : find_device env ctx t
                   = (match kvm_device_ctor env d (bInterfaceNumber alt)
                              (t ++ scan ++ [FreeConfigDescriptor config]) with
                      | (Return this, t') => (Return (Some this), t')
                      | (Throw e, t') => (Throw e, t')
                      | (Undefined, t') => (Undefined, t')
                      end)).
    { enter_single_match d Hlist Hmatch Hconfig.
      rewrite Hnum. cbn [Z.eqb Pos.eqb negb]. unfold target_interface. rewrite Hitf.
      rewrite Halt. cbn [Z.eqb Pos.eqb negb]. rewrite Hfirst.
      unfold bind at 1, libusb_free_config_descriptor, emit.
      rewrite <- app_assoc. cbn [app]. rewrite Htrace.
      unfold bind, ret.
      destruct (kvm_device_ctor env d (bInterfaceNumber alt)
                  (t ++ scan ++ [FreeConfigDescriptor config])) as [[this|e|] t'];
        reflexivity. }
    split; [exact Hrun|].
    intros this t' Hfound. rewrite Hrun in Hfound.
    destruct (kvm_device_ctor env d (bInterfaceNumber alt)
                (t ++ scan ++ [FreeConfigDescriptor config])) as [[this0|e|] t0] eqn:Hctor;
      try discriminate Hfound.
    injection Hfound as Hthis _. subst this0.
    apply kvm_device_ctor_returns in Hctor. destruct Hctor as [Hthis _].
    rewrite Hthis. reflexivity.
Qed.

Lemma topology_gate_witness :
  let wide := Scenario.bus [3; 7] Scenario.wide_config Scenario.all_ok in
  let alt := Scenario.bus [3; 7] Scenario.alt_config Scenario.all_ok in
  let good := Scenario.bus [3; 7] Scenario.kvm_config Scenario.all_ok in
  find_device wide (Some 1) []
  = (Return None,
     [GetDeviceList (Some 1); GetDeviceDescriptor 3; GetDeviceDescriptor 7; RefDevice 7;
      FreeDeviceList 1; GetActiveConfigDescriptor 7;
      Stderr "unexpected number of interfaces: 3, expected 2"])
  /\ find_device alt (Some 1) []
     = (Return None,
        [GetDeviceList (Some 1); GetDeviceDescriptor 3; GetDeviceDescriptor 7; RefDevice 7;
         FreeDeviceList 1; GetActiveConfigDescriptor 7;
         Stderr "unexpected number of alternate interfaces: 2, expected 1"])
  /\ exists t',
       find_device good (Some 1) []
       = (Return (Some {| device := 7; handle := Some 107; interface_number := 3;
                          detached_kernel := false |}), t').
Proof.
  intros wide alt good. split; [|split].
  - destruct (topology_gate wide (Some 1) [] [3; 7] 7 Scenario.wide_config
                eq_refl eq_refl eq_refl) as [Hwide _].
    destruct Hwide as [Hrun _]; [discriminate|]. exact Hrun.
  - destruct (topology_gate alt (Some 1) [] [3; 7] 7 Scenario.alt_config
                eq_refl eq_refl eq_refl) as [_ [Halt _]].
    destruct (Halt {| altsetting := [ {| bInterfaceNumber := 1 |};
                                      {| bInterfaceNumber := 1 |} ];
                      num_altsetting := 2 |} eq_refl eq_refl) as [Hrun _];
      [discriminate|]. exact Hrun.
  - destruct (topology_gate good (Some 1) [] [3; 7] 7 Scenario.kvm_config
                eq_refl eq_refl eq_refl) as [_ [_ Hgood]].
    destruct (Hgood {| altsetting := [ {| bInterfaceNumber := 3 |} ]; num_altsetting := 1 |}
                {| bInterfaceNumber := 3 |} eq_refl eq_refl eq_refl eq_refl)
      as [Hrun _].
    eexists. rewrite Hrun. reflexivity.
Defined.

(** ** Rollback of a failed construction *)

(** Settles the counts of a rollback once the calls are known. *)
Ltac balance Hopen :=
  unfold released, count; cbn; rewrite ?Hopen; cbn [fst];
  repeat match goal with
         | |- context [0 <=? ?x] => destruct (Z.leb_spec 0 x); try lia
         end;
  repeat split.

(** The rollback the constructor does perform.  When it throws before the
    initialization transfer (open, driver query, detach or claim failed),
    the handle it opened is closed, the driver it detached is reattached,
    and the device reference it was given is released once.  When it
    throws after that transfer was issued, it has given nothing back. *)
Lemma kvm_device_ctor_rollback env device0 ifn (t : trace) e t' :
  kvm_device_ctor env device0 ifn t = (Throw e, t') ->
  (0 <= fst (env_open env device0) -> snd (env_open env device0) <> None) ->
  exists calls rc,
    t' = t ++ calls /\ e = ThrowInt rc /\ rc < 0
    /\ (existsb is_control_transfer calls = false ->
        released calls OpenHandle = acquired env t calls OpenHandle
        /\ released calls DetachedDriver = acquired env t calls DetachedDriver
        /\ released calls DeviceRef = 1%nat)
    /\ (existsb is_control_transfer calls = true ->
        existsb is_teardown calls = false).
Proof.
  unfold kvm_device_ctor, bind at 1, libusb_open, emit.
  destruct (env_open env device0) as [rc h] eqn:Hopen. cbn [fst snd].
  destruct (Z.ltb_spec rc 0) as [Hfail|Hok].
  { run_calls. intros Hrun _. injection Hrun as He Ht. subst e t'.
    eexists. exists rc. split; [tidy_trace; reflexivity|].
    split; [reflexivity|]. split; [assumption|].
    split; [|discriminate]. intros _. balance Hopen. }
  intros Hrun Hnonnull. specialize (Hnonnull Hok).
  destruct h as [h|]; [clear Hnonnull|congruence].
  revert Hrun.
  unfold bind at 1, libusb_kernel_driver_active, status. cbn [handle].
  set (active := env_status env (t ++ [Open device0]) (KernelDriverActive (Some h) ifn)).
  assert (Hclaim : forall flag calls0,
             (flag = true ->
              calls0 = [Open device0; KernelDriverActive (Some h) ifn;
                        DetachKernelDriver (Some h) ifn]
              /\ 0 <= env_status env
                        ((t ++ [Open device0]) ++ [KernelDriverActive (Some h) ifn])
                        (DetachKernelDriver (Some h) ifn)) ->
             (flag = false ->
              calls0 = [Open device0; KernelDriverActive (Some h) ifn]) ->
             kvm_device_claim env
               {| device := device0; handle := Some h; interface_number := ifn;
                  detached_kernel := flag |} (t ++ calls0) = (Throw e, t') ->
             exists calls rc0,
               t' = t ++ calls /\ e = ThrowInt rc0 /\ rc0 < 0
               /\ (existsb is_control_transfer calls = false ->
                   released calls OpenHandle = acquired env t calls OpenHandle
                   /\ released calls DetachedDriver = acquired env t calls DetachedDriver
                   /\ released calls DeviceRef = 1%nat)
               /\ (existsb is_control_transfer calls = true ->
                   existsb is_teardown calls = false)).
  { intros flag calls0 Hset Hclear.
    unfold kvm_device_claim, bind at 1, libusb_claim_interface, status.
    cbn [handle interface_number].
    destruct (Z.ltb_spec (env_status env (t ++ calls0) (ClaimInterface (Some h) ifn)) 0)
      as [Hrefused|Hclaimed].
    - run_calls. destruct flag.
      + destruct (Hset eq_refl) as [-> Hdet]. intros Hrun.
        injection Hrun as He Ht. subst e t'.
        eexists. eexists. split; [tidy_trace; reflexivity|].
        split; [reflexivity|]. split; [assumption|].
        split; [|discriminate]. intros _. balance Hopen.
      + pose proof (Hclear eq_refl) as Hcalls. subst calls0. intros Hrun.
        injection Hrun as He Ht. subst e t'.
        eexists. eexists. split; [tidy_trace; reflexivity|].
        split; [reflexivity|]. split; [assumption|].
        split; [|discriminate]. intros _. balance Hopen.
    - unfold bind.
      destruct (initialize_run env
                  {| device := device0; handle := Some h; interface_number := ifn;
                     detached_kernel := flag |}
                  ((t ++ calls0) ++ [ClaimInterface (Some h) ifn]))
        as [[calls [Hinit _]]|[rc' [text [Hinit Hneg]]]]; rewrite Hinit.
      + discriminate.
      + intros Hrun. injection Hrun as He Ht. subst e t'.
        destruct flag.
        * destruct (Hset eq_refl) as [-> _].
          eexists. eexists. split; [tidy_trace; reflexivity|].
          split; [reflexivity|]. split; [assumption|].
          split; [discriminate|reflexivity].
        * pose proof (Hclear eq_refl) as Hcalls. subst calls0.
          eexists. eexists. split; [tidy_trace; reflexivity|].
          split; [reflexivity|]. split; [assumption|].
          split; [discriminate|reflexivity]. }
  destruct (Z.ltb_spec active 0) as [Hquery|Hquery].
  { run_calls. intros Hrun. injection Hrun as He Ht. subst e t'.
    eexists. exists active. split; [tidy_trace; reflexivity|].
    split; [reflexivity|]. split; [assumption|].
    split; [|discriminate]. intros _. balance Hopen. }
  destruct (Z.eqb_spec active 0) as [Hidle|Hbound]; cbn [negb].
  { intros Hrun.
    apply (Hclaim false [Open device0; KernelDriverActive (Some h) ifn]).
    - discriminate.
    - reflexivity.
    - revert Hrun. tidy_trace. exact (fun H => H). }
  unfold bind at 1, libusb_detach_kernel_driver, status.
  destruct (Z.ltb_spec (env_status env
                          ((t ++ [Open device0]) ++ [KernelDriverActive (Some h) ifn])
                          (DetachKernelDriver (Some h) ifn)) 0) as [Hkept|Hdetached].
  { run_calls. intros Hrun. injection Hrun as He Ht. subst e t'.
    eexists. eexists. split; [tidy_trace; reflexivity|].
    split; [reflexivity|]. split; [exact Hkept|].
    split; [|discriminate]. intros _. balance Hopen. }
  intros Hrun.
  apply (Hclaim true [Open device0; KernelDriverActive (Some h) ifn;
                      DetachKernelDriver (Some h) ifn]).
  - intros _. split; [reflexivity|assumption].
  - discriminate.
  - revert Hrun. tidy_trace. exact (fun H => H).
Qed.

(** ** The exit code *)

Lemma trigger_returns env this (t : trace) :
  exists r t', trigger env this t = (Return r, t').
Proof.
  unfold trigger. rewrite send_request_run. cbv zeta.
  destruct (_ <? 0); [eauto|]. destruct (negb _); eauto.
Qed.

(** The exit code of [main], by what [find_device] does: 1 when libusb
    cannot be initialized, when no session is returned and when an [int] is
    thrown; 0 whenever a session is returned, whatever [trigger] returns.
    The [ssize_t] that [find_devices] throws is not an [int] (LP64) and is
    not caught. *)
Lemma main_exit_code env :
  (fst (env_init env) <> 0 ->
   main env []
   = (Return 1, [Init; Stderr ("error: failed to initialize libusb" ++ LF)%string]))
  /\ (fst (env_init env) = 0 ->
      match find_device env (snd (env_init env)) [Init] with
      | (Return (Some _), _) => exists t', main env [] = (Return 0, t')
      | (Return None, _) => exists t', main env [] = (Return 1, t')
      | (Throw (ThrowInt _), _) => exists t', main env [] = (Return 1, t')
      | (Throw (ThrowSsize n), t') => main env [] = (Throw (ThrowSsize n), t')
      | (Undefined, t') => main env [] = (Undefined, t')
      end).
Proof.
  unfold main, bind at 1, libusb_init, emit.
  destruct (env_init env) as [init_rc ctx]. cbn [fst snd app].
  split.
  - intros Hfail. destruct (Z.eqb_spec init_rc 0) as [|_]; [contradiction|].
    reflexivity.
  - intros ->. unfold try_catch_int, bind.
    change (negb (0 =? 0)) with false. cbn [app]. cbv beta iota.
    destruct (find_device env ctx [Init]) as [[[k|]|[rc|n]|] t1].
    + destruct (trigger_returns env k t1) as [r [t2 Htrigger]]. rewrite Htrigger.
      rewrite kvm_device_dtor_run.
      unfold ret, when, is_nonnull, libusb_exit, emit.
      destruct ctx; eexists; reflexivity.
    + destruct ctx; eexists; reflexivity.
    + destruct (negb (rc =? 0)); destruct ctx; eexists; reflexivity.
    + reflexivity.
    + reflexivity.
Qed.

(** ** Claims the code does not meet *)

(** C1 fails on the code.  With two KVM switches on the bus [find_device]
    takes a reference on each and returns no session without giving either
    back.  With one switch of a revision with 3 interfaces it returns no
    session while holding the device reference and the configuration
    descriptor.  When the initialization transfer is rejected it throws
    while holding the open handle, the detached kernel driver and the
    device reference.  (The failures of open, driver query, detach and
    claim are rolled back: [kvm_device_ctor_rollback].) *)
Theorem find_device_leaks_on_early_return :
  let ambiguous := Scenario.bus [3; 7; 8] Scenario.kvm_config Scenario.all_ok in
  let wide := Scenario.bus [3; 7] Scenario.wide_config Scenario.all_ok in
  let rejected := Scenario.bus [3; 7] Scenario.kvm_config Scenario.transfers_rejected in
  (exists calls,
     find_device ambiguous (Some 1) [] = (Return None, calls)
     /\ acquired ambiguous [] calls DeviceRef = 2%nat
     /\ released calls DeviceRef = 0%nat)
  /\ (exists calls,
        find_device wide (Some 1) [] = (Return None, calls)
        /\ acquired wide [] calls DeviceRef = 1%nat
        /\ released calls DeviceRef = 0%nat
        /\ acquired wide [] calls ConfigDescriptor = 1%nat
        /\ released calls ConfigDescriptor = 0%nat)
  /\ (exists calls,
        find_device rejected (Some 1) [] = (Throw (ThrowInt (-1)), calls)
        /\ acquired rejected [] calls DeviceRef = 1%nat
        /\ released calls DeviceRef = 0%nat
        /\ acquired rejected [] calls OpenHandle = 1%nat
        /\ released calls OpenHandle = 0%nat
        /\ acquired rejected [] calls DetachedDriver = 1%nat
        /\ released calls DetachedDriver = 0%nat).
Proof.
  intros ambiguous wide rejected.
  split; [|split]; eexists; (split; [vm_compute; reflexivity|]);
    vm_compute; repeat split.
Qed.

(** C2 fails on the code.  On a device whose kernel driver was detached and
    whose interface was claimed, a rejected initialization transfer makes
    the constructor throw straight out of [initialize]: the last calls are
    the transfer and its message, and no reattach, close or unref follows. *)
Theorem initialize_failure_skips_cleanup :
  let env := Scenario.bus [3; 7] Scenario.kvm_config Scenario.transfers_rejected in
  kvm_device_ctor env 7 3 []
  = (Throw (ThrowInt (-1)),
     [Open 7; KernelDriverActive (Some 107) 3; DetachKernelDriver (Some 107) 3;
      ClaimInterface (Some 107) 3;
      ControlTransfer (Some 107) 0x21 0x09 0x0200 3 [x03; x00; x00; x00; x00] 5 100;
      Stderr ("failed to write data in send_request" ++ LF)%string])
  /\ existsb is_teardown (snd (kvm_device_ctor env 7 3 [])) = false
  /\ existsb is_teardown (snd (main env [])) = false.
Proof. vm_compute. repeat split. Qed.

(** C3 fails on the code.  With a session acquired and the trigger transfer
    rejected, [trigger] writes its diagnostic and returns -1, and [main]
    drops that value and exits with code 0. *)
Theorem main_exits_zero_on_failed_trigger :
  let env := Scenario.bus [3; 7] Scenario.kvm_config Scenario.trigger_rejected in
  let this := {| device := 7; handle := Some 107; interface_number := 3;
                 detached_kernel := false |} in
  let init := ControlTransfer (Some 107) 0x21 0x09 0x0200 3
                [x03; x00; x00; x00; x00] 5 100 in
  let trig := ControlTransfer (Some 107) 0x21 0x09 0x0200 3
                [x03; x5c; x04; x00; x00] 5 100 in
  let acquired_at :=
    [Init; GetDeviceList (Some 1); GetDeviceDescriptor 3; GetDeviceDescriptor 7;
     RefDevice 7; FreeDeviceList 1; GetActiveConfigDescriptor 7;
     FreeConfigDescriptor Scenario.kvm_config; Open 7;
     KernelDriverActive (Some 107) 3; ClaimInterface (Some 107) 3; init] in
  let failed := Stderr ("failed to write data in send_request" ++ LF)%string in
  find_device env (Some 1) [Init] = (Return (Some this), acquired_at)
  /\ trigger env this acquired_at = (Return (-1), acquired_at ++ [trig; failed])
  /\ main env []
     = (Return 0,
        acquired_at ++ [trig; failed; Close (Some 107); UnrefDevice 7; Exit (Some 1)]).
Proof. vm_compute. repeat split. Qed.

(** A refused claim after a successful detach is rolled back: the driver
    is reattached, the handle closed and the reference released, in that
    order, before the failure reaches [main]. *)
Example claim_refused_rolls_back :
  let env := Scenario.bus [3; 7] Scenario.kvm_config Scenario.claim_refused in
  kvm_device_ctor env 7 3 []
  = (Throw (ThrowInt (-6)),
     [Open 7; KernelDriverActive (Some 107) 3; DetachKernelDriver (Some 107) 3;
      ClaimInterface (Some 107) 3;
      Stderr ("libusb_claim_interface failed in kvm_device constructor" ++ LF)%string;
      AttachKernelDriver (Some 107) 3; Close (Some 107); UnrefDevice 7])
  /\ fst (main env []) = Return 1.
Proof. vm_compute. split; reflexivity. Qed.

(** * Further properties of the code *)

(** ** The constructor, case by case *)

Lemma kvm_device_claim_cases env this (t : trace) :
  let c := ClaimInterface (handle this) (interface_number this) in
  kvm_device_claim env this t
  = if env_status env t c <? 0
    then (Throw (ThrowInt (env_status env t c)),
          t ++ [c; Stderr claim_failed_line]
            ++ (if detached_kernel this
                then [AttachKernelDriver (handle this) (interface_number this)] else [])
            ++ close_calls (handle this) ++ [UnrefDevice (device this)])
    else match initialize env this (t ++ [c]) with
         | (Return _, t') => (Return this, t')
         | (Throw e, t') => (Throw e, t')
         | (Undefined, t') => (Undefined, t')
         end.
Proof.
  intros c. unfold kvm_device_claim, bind at 1, libusb_claim_interface, status.
  fold c. destruct (env_status env t c <? 0).
  - run_calls. unfold close_calls, is_nonnull.
    destruct (detached_kernel this), (handle this); tidy_trace; reflexivity.
  - unfold bind, ret. destruct (initialize env this (t ++ [c])) as [[[]|e|] t'];
      reflexivity.
Qed.

Lemma kvm_device_ctor_cases env d ifn (t : trace) rc h :
  env_open env d = (rc, h) ->
  let t1 := t ++ [Open d] in
  let active := env_status env t1 (KernelDriverActive h ifn) in
  let t2 := t1 ++ [KernelDriverActive h ifn] in
  let det := env_status env t2 (DetachKernelDriver h ifn) in
  let session flag := {| device := d; handle := h; interface_number := ifn;
                         detached_kernel := flag |} in
  kvm_device_ctor env d ifn t
  = if rc <? 0
    then (Throw (ThrowInt rc), t ++ [Open d; Stderr open_failed_line; UnrefDevice d])
    else if active <? 0
    then (Throw (ThrowInt active),
          t ++ [Open d; KernelDriverActive h ifn; Stderr query_failed_line]
            ++ close_calls h ++ [UnrefDevice d])
    else if active =? 0 then kvm_device_claim env (session false) t2
    else if det <? 0
    then (Throw (ThrowInt det),
          t ++ [Open d; KernelDriverActive h ifn; DetachKernelDriver h ifn]
            ++ close_calls h ++ [UnrefDevice d])
    else kvm_device_claim env (session true) (t2 ++ [DetachKernelDriver h ifn]).
Proof.
  intros Hopen t1 active t2 det session.
  unfold kvm_device_ctor, bind at 1, libusb_open, emit. rewrite Hopen.
  destruct (rc <? 0).
  { run_calls. tidy_trace. reflexivity. }
  unfold bind at 1, libusb_kernel_driver_active, status. cbn [handle].
  fold t1. fold active. destruct (active <? 0).
  { run_calls. unfold close_calls, is_nonnull. subst t1.
    destruct h; tidy_trace; reflexivity. }
  destruct (active =? 0); cbn [negb]; [reflexivity|].
  unfold bind at 1, libusb_detach_kernel_driver, status.
  fold t2. fold det. destruct (det <? 0); [|reflexivity].
  run_calls. unfold close_calls, is_nonnull. subst t2 t1.
  destruct h; tidy_trace; reflexivity.
Qed.

Lemma initialize_cases env this (t : trace) :
  let c := set_report_call this initialize_data 5 100 in
  let rc := env_status env t c in
  initialize env this t
  = if rc <? 0 then (Throw (ThrowInt rc), t ++ [c; Stderr write_failed_line])
    else if negb (to_size_t rc =? 5)
         then (Throw (ThrowInt (-1)), t ++ [c; Stderr (short_write_line rc 5)])
         else (Return tt, t ++ [c]).
Proof.
  intros c rc. unfold initialize, bind.
  change (sizeof initialize_data) with 5. change default_timeout_ms with 100.
  rewrite send_request_run. fold c. fold rc.
  destruct (Z.ltb_spec rc 0) as [Hneg|Hpos].
  - destruct (Z.ltb_spec rc 0); [reflexivity|lia].
  - destruct (negb (to_size_t rc =? 5)); reflexivity.
Qed.

(** The initialization handshake.  [initialize] issues one Set Report
    transfer carrying the bytes 03 00 00 00 00 to the interface of the
    session.  It returns only when the transport reports exactly 5 bytes;
    a negative result is thrown as it is and any other count is thrown as
    -1, each after the line [send_request] writes, so what it throws is
    always a negative [int]. *)
Theorem initialize_handshake env this (t : trace) :
  let c := ControlTransfer (handle this) 0x21 0x09 0x0200
             (to_uint16 (interface_number this)) [x03; x00; x00; x00; x00] 5 100 in
  let rc := env_status env t c in
  is_int rc ->
  (rc = 5 -> initialize env this t = (Return tt, t ++ [c]))
  /\ (rc < 0 ->
      initialize env this t
      = (Throw (ThrowInt rc), t ++ [c; Stderr write_failed_line]))
  /\ (0 <= rc -> rc <> 5 ->
      initialize env this t
      = (Throw (ThrowInt (-1)), t ++ [c; Stderr (short_write_line rc 5)])).
Proof.
  intros c rc Hint.
  pose proof (initialize_cases env this t) as Hrun. cbv zeta in Hrun.
  change (set_report_call this initialize_data 5 100) with c in Hrun.
  fold rc in Hrun. rewrite Hrun.
  split; [|split].
  - intros H5. rewrite H5. reflexivity.
  - intros Hneg. destruct (Z.ltb_spec rc 0); [reflexivity|lia].
  - intros Hpos Hne. destruct (Z.ltb_spec rc 0); [lia|].
    rewrite (to_size_t_of_count rc Hpos Hint).
    destruct (Z.eqb_spec rc 5); [contradiction|reflexivity].
Qed.

Lemma initialize_handshake_witness :
  let env := Scenario.bus [7] Scenario.kvm_config (fun _ _ => 3) in
  let this := {| device := 7; handle := Some 107; interface_number := 3;
                 detached_kernel := false |} in
  initialize env this []
  = (Throw (ThrowInt (-1)),
     [ControlTransfer (Some 107) 0x21 0x09 0x0200 3 [x03; x00; x00; x00; x00] 5 100;
      Stderr (short_write_line 3 5)]).
Proof.
  intros env this.
  destruct (initialize_handshake env this []) as [_ [_ Hshort]].
  - vm_compute. split; discriminate.
  - apply Hshort.
    + vm_compute. discriminate.
    + vm_compute. discriminate.
Defined.

(** ** Rollback order and the life of a session *)






(** ** What [find_device] throws *)

Lemma find_devices_loop_never_throws env devices vid pid (n : nat) :
  forall i result (t : trace) e t',
    find_devices_loop env devices vid pid i n result t <> (Throw e, t').
Proof.
  induction n as [|n IH]; intros i result t e t'; [discriminate|].
  cbn [find_devices_loop].
  destruct (nth_error devices (Z.to_nat i)) as [d|]; [|discriminate].
  unfold bind at 1, libusb_get_device_descriptor, emit.
  destruct (env_device_descriptor env d) as [rc descriptor].
  destruct ((idVendor descriptor =? vid) && (idProduct descriptor =? pid)).
  - unfold bind at 1, libusb_ref_device, emit. apply IH.
  - apply IH.
Qed.

Lemma find_devices_throws env ctx vid pid (t : trace) e t' :
  find_devices env ctx vid pid t = (Throw e, t') ->
  e = ThrowSsize (fst (env_device_list env))
  /\ fst (env_device_list env) < 0
  /\ t' = t ++ [GetDeviceList ctx].
Proof.
  unfold find_devices, bind at 1, libusb_get_device_list, emit.
  destruct (env_device_list env) as [count0 devices]. cbn [fst].
  destruct (Z.ltb_spec count0 0) as [Hneg|Hpos].
  - unfold throw. intros H. injection H as He Ht. subst. auto.
  - unfold bind at 1.
    destruct (find_devices_loop env devices vid pid 0 (Z.to_nat count0) []
                (t ++ [GetDeviceList ctx])) as [[result|e0|] t0] eqn:Hloop.
    + run_calls. discriminate.
    + exfalso. exact (find_devices_loop_never_throws _ _ _ _ _ _ _ _ _ _ Hloop).
    + discriminate.
Qed.

Lemma kvm_device_ctor_throws env d ifn (t : trace) e t' :
  kvm_device_ctor env d ifn t = (Throw e, t') ->
  exists rc, e = ThrowInt rc /\ rc < 0.
Proof.
  destruct (env_open env d) as [rc h] eqn:Hopen.
  rewrite (kvm_device_ctor_cases env d ifn t rc h Hopen). cbv zeta.
  assert (Hclaim : forall this t0,
             kvm_device_claim env this t0 = (Throw e, t') ->
             exists rc0, e = ThrowInt rc0 /\ rc0 < 0).
  { intros this t0. rewrite kvm_device_claim_cases. cbv zeta.
    destruct (Z.ltb_spec (env_status env t0
                            (ClaimInterface (handle this) (interface_number this))) 0).
    - intros Hthrown. injection Hthrown as He _. eauto.
    - rewrite initialize_cases. cbv zeta.
      match goal with |- context [?x <? 0] => destruct (Z.ltb_spec x 0) end.
      + intros Hthrown. injection Hthrown as He _. eauto.
      + destruct (negb _); [|discriminate].
        intros Hthrown. injection Hthrown as He _. exists (-1). split; [auto|lia]. }
  destruct (Z.ltb_spec rc 0).
  { intros Hthrown. injection Hthrown as He _. eauto. }
  match goal with |- context [?x <? 0] => destruct (Z.ltb_spec x 0) end.
  { intros Hthrown. injection Hthrown as He _. eauto. }
  destruct (_ =? 0); [apply Hclaim|].
  match goal with |- context [?x <? 0] => destruct (Z.ltb_spec x 0) end.
  { intros Hthrown. injection Hthrown as He _. eauto. }
  apply Hclaim.
Qed.

Lemma find_device_throws env ctx (t : trace) e t' :
  find_device env ctx t = (Throw e, t') ->
  (exists rc, e = ThrowInt rc /\ rc < 0)
  \/ (e = ThrowSsize (fst (env_device_list env))
      /\ fst (env_device_list env) < 0
      /\ t' = t ++ [GetDeviceList ctx]).
Proof.
  unfold find_device, bind at 1.
  destruct (find_devices env ctx vendor_id product_id t) as [[devices|e0|] t0] eqn:Hscan.
  - destruct (List.length devices =? 0)%nat; [run_calls; discriminate|].
    destruct (1 <? List.length devices)%nat; [run_calls; discriminate|].
    destruct (nth_error devices 0) as [d|]; [|discriminate].
    unfold bind at 1, libusb_get_active_config_descriptor, emit.
    destruct (env_config_descriptor env d) as [rc config].
    destruct (negb (rc =? 0)); [run_calls; discriminate|].
    destruct (negb (bNumInterfaces config =? 2)); [run_calls; discriminate|].
    destruct (nth_error (interface config) target_interface) as [itf|]; [|discriminate].
    destruct (negb (num_altsetting itf =? 1)); [run_calls; discriminate|].
    destruct (nth_error (altsetting itf) 0) as [alt|]; [|discriminate].
    unfold bind at 1, libusb_free_config_descriptor, emit.
    unfold bind at 1.
    destruct (kvm_device_ctor env d (bInterfaceNumber alt)
                ((t0 ++ [GetActiveConfigDescriptor d]) ++ [FreeConfigDescriptor config]))
      as [[k|e1|] t2] eqn:Hctor.
    + discriminate.
    + intros Hthrown. injection Hthrown as He _. subst e1. left.
      exact (kvm_device_ctor_throws _ _ _ _ _ _ Hctor).
    + discriminate.
  - intros Hthrown. injection Hthrown as He Ht. subst e0 t0. right.
    exact (find_devices_throws _ _ _ _ _ _ _ Hscan).
  - discriminate.
Qed.

(** What acquisition throws.  [find_device] throws in two ways only: the
    negative count of a failed enumeration, right after the enumeration
    call and as an [ssize_t]; or a negative [int] out of the constructor.
    It never throws zero or a positive value. *)
Theorem find_device_throws_only_negative env ctx (t : trace) e t' :
  find_device env ctx t = (Throw e, t') ->
  (exists rc, e = ThrowInt rc /\ rc < 0)
  \/ (e = ThrowSsize (fst (env_device_list env))
      /\ fst (env_device_list env) < 0
      /\ t' = t ++ [GetDeviceList ctx]).
Proof. exact (find_device_throws env ctx t e t'). Qed.

Lemma find_device_throws_only_negative_witness :
  let env := Scenario.bus [3; 7] Scenario.kvm_config Scenario.claim_refused in
  exists rc, ThrowInt (-6) = ThrowInt rc /\ rc < 0.
Proof.
  intros env.
  destruct (find_device_throws_only_negative env (Some 1) [] (ThrowInt (-6))
              (snd (find_device env (Some 1) []))) as [Hint|[Hsize _]].
  - reflexivity.
  - exact Hint.
  - discriminate Hsize.
Defined.

(** ** The scan and the configuration read *)

Lemma count_none (p : call -> bool) (l : trace) :
  existsb p l = false -> count p l = 0%nat.
Proof.
  unfold count. induction l as [|c l IH]; [reflexivity|].
  cbn [existsb filter]. intros H. apply orb_false_iff in H. destruct H as [Hc Hrest].
  rewrite Hc. exact (IH Hrest).
Qed.

(** The calls of [find_devices], in order.  On a consistent enumeration
    [find_devices] asks for the device list once, then queries the
    descriptor of every device once in enumeration order, taking the
    reference on a match right after its query, and frees the list (with
    the unref flag 1) as its last call, after every reference is taken,
    whether or not anything matched. *)
Theorem find_devices_call_order env ctx vid pid (t : trace) devices :
  env_device_list env = (Z.of_nat (List.length devices), devices) ->
  snd (find_devices env ctx vid pid t)
  = t ++ GetDeviceList ctx
         :: flat_map (fun d => GetDeviceDescriptor d
                               :: (if descriptor_matches env vid pid d
                                   then [RefDevice d] else [])) devices
         ++ [FreeDeviceList 1].
Proof.
  intros Hlist. rewrite (find_devices_filter env ctx vid pid t devices Hlist).
  reflexivity.
Qed.

Lemma find_devices_call_order_witness :
  let env := Scenario.bus [7; 3] Scenario.kvm_config Scenario.all_ok in
  snd (find_devices env None 0x2101 0x1406 [])
  = [GetDeviceList None; GetDeviceDescriptor 7; RefDevice 7; GetDeviceDescriptor 3;
     FreeDeviceList 1].
Proof.
  intros env.
  exact (find_devices_call_order env None 0x2101 0x1406 [] [7; 3] eq_refl).
Defined.

(** An unreadable configuration.  When exactly one device matches and
    reading its active configuration descriptor returns any non-zero code,
    [find_device] returns no session: it writes "failed to get active
    config descriptor: " followed by the libusb name of the code (with no
    newline), looks at nothing of the configuration, frees no descriptor
    and does not open the device. *)
Theorem find_device_config_unreadable env ctx (t : trace) devices d rc config :
  env_device_list env = (Z.of_nat (List.length devices), devices) ->
  filter (descriptor_matches env 0x2101 0x1406) devices = [d] ->
  env_config_descriptor env d = (rc, config) ->
  rc <> 0 ->
  let calls :=
    scan_trace env ctx 0x2101 0x1406 devices
    ++ [GetActiveConfigDescriptor d;
        Stderr ("failed to get active config descriptor: " ++ env_error_name env rc)%string]
  in
  find_device env ctx t = (Return None, t ++ calls)
  /\ existsb is_open calls = false
  /\ released calls ConfigDescriptor = 0%nat.
Proof.
  intros Hlist Hmatch Hconfig Hrc calls.
  assert (Hquiet : forall p,
             (forall x, p (GetDeviceDescriptor x) = false) ->
             (forall x, p (RefDevice x) = false) ->
             p (GetDeviceList ctx) = false -> p (FreeDeviceList 1) = false ->
             p (GetActiveConfigDescriptor d) = false ->
             (forall text, p (Stderr text) = false) ->
             existsb p calls = false).
  { intros p Hget Href Hlist' Hfree Hactive Herr. subst calls. unfold scan_trace.
    cbn [app existsb]. rewrite Hlist'. cbn [orb].
    rewrite <- app_assoc, existsb_app, (scan_calls_no_open env _ _ devices p Hget Href).
    cbn. now rewrite Hfree, Hactive, Herr. }
  split; [|split].
  - unfold find_device, bind at 1.
    rewrite (find_devices_filter _ _ vendor_id product_id _ _ Hlist).
    change vendor_id with 0x2101; change product_id with 0x1406.
    rewrite Hmatch. cbn [List.length Nat.eqb Nat.ltb Nat.leb].
    change (nth_error [d] 0%nat) with (Some d).
    unfold bind at 1, libusb_get_active_config_descriptor, emit. rewrite Hconfig.
    destruct (Z.eqb_spec rc 0) as [|_]; [contradiction|]. cbn [negb].
    run_calls. f_equal. subst calls. unfold scan_trace. tidy_trace. reflexivity.
  - apply Hquiet; reflexivity.
  - unfold released. apply count_none. apply Hquiet; reflexivity.
Qed.

Lemma find_device_config_unreadable_witness :
  let env := {| env_init := (0, Some 1);
                env_device_list := (2, [3; 7]);
                env_device_descriptor := fun d =>
                  (0, if d =? 7 then Scenario.kvm_descriptor else Scenario.hub_descriptor);
                env_config_descriptor := fun _ => (-4, Scenario.kvm_config);
                env_open := fun d => (0, Some (100 + d));
                env_status := Scenario.all_ok;
                env_error_name := fun _ => "LIBUSB_ERROR_NO_DEVICE" |} in
  find_device env (Some 1) []
  = (Return None,
     [GetDeviceList (Some 1); GetDeviceDescriptor 3; GetDeviceDescriptor 7; RefDevice 7;
      FreeDeviceList 1; GetActiveConfigDescriptor 7;
      Stderr "failed to get active config descriptor: LIBUSB_ERROR_NO_DEVICE"]).
Proof.
  intros env.
  destruct (find_device_config_unreadable env (Some 1) [] [3; 7] 7 (-4)
              Scenario.kvm_config eq_refl eq_refl eq_refl) as [Hrun _].
  - discriminate.
  - exact Hrun.
Defined.

(** ** The run of [main] *)

Lemma trigger_run env this (t : trace) :
  let c := set_report_call this trigger_data 5 100 in
  let rc := env_status env t c in
  trigger env this t
  = if rc <? 0 then (Return rc, t ++ [c; Stderr write_failed_line])
    else if negb (to_size_t rc =? 5)
         then (Return (-1), t ++ [c; Stderr (short_write_line rc 5)])
         else (Return 0, t ++ [c]).
Proof. intros c rc. unfold trigger. rewrite send_request_run. reflexivity. Qed.

Lemma main_cases env ctx :
  env_init env = (0, ctx) ->
  main env []
  = match find_device env ctx [Init] with
    | (Return (Some k), t1) =>
      (Return 0, snd (trigger env k t1) ++ dtor_calls k ++ exit_calls ctx)
    | (Return None, t1) => (Return 1, t1 ++ exit_calls ctx)
    | (Throw (ThrowInt rc), t1) =>
      (Return 1,
       t1 ++ (if negb (rc =? 0) then [Stderr (libusb_error_line env rc)] else [])
          ++ exit_calls ctx)
    | (Throw (ThrowSsize n), t1) => (Throw (ThrowSsize n), t1)
    | (Undefined, t1) => (Undefined, t1)
    end.
Proof.
  intros Hinit. unfold main, bind at 1, libusb_init, emit. rewrite Hinit.
  unfold try_catch_int, bind.
  change (negb (0 =? 0)) with false. cbn [app]. cbv beta iota.
  destruct (find_device env ctx [Init]) as [[[k|]|[rc|n]|] t1].
  - destruct (trigger_returns env k t1) as [r [t2 Htrigger]]. rewrite Htrigger.
    rewrite kvm_device_dtor_run. cbn [snd]. fold (dtor_calls k).
    unfold exit_calls. destruct ctx; unfold when, is_nonnull, libusb_exit, emit, ret;
      cbv beta iota; f_equal; tidy_trace; rewrite ?app_nil_r; reflexivity.
  - unfold exit_calls. destruct ctx; unfold when, is_nonnull, libusb_exit, emit, ret;
      cbv beta iota; rewrite ?app_nil_r; reflexivity.
  - unfold exit_calls, libusb_error_line.
    destruct (negb (rc =? 0)); destruct ctx;
      unfold when, is_nonnull, libusb_exit, fprintf_stderr, emit, ret;
      cbv beta iota; f_equal; tidy_trace; rewrite ?app_nil_r; reflexivity.
  - reflexivity.
  - reflexivity.
Qed.

(** The session is destroyed before libusb is shut down.  When
    [find_device] returns a session, [main] issues the trigger transfer
    once and then, whether or not that transfer succeeded, runs the
    destructor (reattach when the flag is set, close, unref) and only after
    it calls [libusb_exit]; the exit code is 0.  At most one line is
    written for the trigger. *)
Theorem main_destroys_session_before_exit env ctx k (t1 : trace) :
  env_init env = (0, ctx) ->
  find_device env ctx [Init] = (Return (Some k), t1) ->
  exists log,
    (List.length log <= 1)%nat
    /\ main env []
       = (Return 0,
          t1 ++ set_report_call k trigger_data 5 100 :: map Stderr log
             ++ dtor_calls k ++ exit_calls ctx).
Proof.
  intros Hinit Hfound. rewrite (main_cases env ctx Hinit), Hfound.
  rewrite trigger_run. cbv zeta.
  destruct (_ <? 0).
  - exists [write_failed_line]. split; [apply Nat.le_refl|].
    cbn [snd map]. f_equal. tidy_trace. reflexivity.
  - destruct (negb _).
    + eexists [_]. split; [apply Nat.le_refl|].
      cbn [snd map]. f_equal. tidy_trace. reflexivity.
    + exists []. split; [apply Nat.le_0_l|].
      cbn [snd map]. f_equal. tidy_trace. reflexivity.
Qed.

Lemma main_destroys_session_before_exit_witness :
  let env := Scenario.bus [3; 7] Scenario.kvm_config Scenario.driver_bound in
  let k := {| device := 7; handle := Some 107; interface_number := 3;
              detached_kernel := true |} in
  exists log,
    main env []
    = (Return 0,
       snd (find_device env (Some 1) [Init])
       ++ ControlTransfer (Some 107) 0x21 0x09 0x0200 3 [x03; x5c; x04; x00; x00] 5 100
          :: map Stderr log
       ++ [AttachKernelDriver (Some 107) 3; Close (Some 107); UnrefDevice 7;
           Exit (Some 1)]).
Proof.
  intros env k.
  destruct (main_destroys_session_before_exit env (Some 1) k
              (snd (find_device env (Some 1) [Init])) eq_refl eq_refl)
    as [log [_ Hrun]].
  exists log. exact Hrun.
Defined.

(** The failures of [main].  When [libusb_init] fails, [main] writes its
    message and exits with 1 at once, calling nothing else (no
    [libusb_exit]).  When [find_device] returns no session, [main] exits
    with 1 after [libusb_exit].  When [find_device] throws an [int], [main]
    always writes the line "libusb error: <name>" (the thrown code is never
    zero), then calls [libusb_exit] and exits with 1. *)
Theorem main_failures_exit_one env :
  (fst (env_init env) <> 0 ->
   main env []
   = (Return 1, [Init; Stderr ("error: failed to initialize libusb" ++ LF)%string]))
  /\ (forall ctx t1,
        env_init env = (0, ctx) ->
        find_device env ctx [Init] = (Return None, t1) ->
        main env [] = (Return 1, t1 ++ exit_calls ctx))
  /\ (forall ctx rc t1,
        env_init env = (0, ctx) ->
        find_device env ctx [Init] = (Throw (ThrowInt rc), t1) ->
        main env [] = (Return 1, t1 ++ Stderr (libusb_error_line env rc) :: exit_calls ctx)).
Proof.
  split; [|split].
  - intros Hfail. unfold main, bind at 1, libusb_init, emit.
    destruct (env_init env) as [init_rc ctx]. cbn [fst] in Hfail.
    destruct (Z.eqb_spec init_rc 0) as [|_]; [contradiction|]. reflexivity.
  - intros ctx t1 Hinit Hnone. rewrite (main_cases env ctx Hinit), Hnone. reflexivity.
  - intros ctx rc t1 Hinit Hthrown. rewrite (main_cases env ctx Hinit), Hthrown.
    destruct (find_device_throws env ctx [Init] _ _ Hthrown)
      as [[rc0 [Hrc Hneg]]|[Hsize _]]; [|discriminate Hsize].
    injection Hrc as Hrc. subst rc0.
    destruct (Z.eqb_spec rc 0) as [Hzero|_]; [lia|]. reflexivity.
Qed.

Lemma main_failures_exit_one_witness :
  let failing := {| env_init := (-99, None);
                    env_device_list := (0, []);
                    env_device_descriptor := fun _ => (0, Scenario.hub_descriptor);
                    env_config_descriptor := fun _ => (0, Scenario.kvm_config);
                    env_open := fun d => (0, Some (100 + d));
                    env_status := Scenario.all_ok;
                    env_error_name := Scenario.error_name |} in
  let empty := Scenario.bus [3] Scenario.kvm_config Scenario.all_ok in
  let refused := Scenario.bus [3; 7] Scenario.kvm_config Scenario.claim_refused in
  main failing []
  = (Return 1, [Init; Stderr ("error: failed to initialize libusb" ++ LF)%string])
  /\ main empty [] = (Return 1, snd (find_device empty (Some 1) [Init]) ++ [Exit (Some 1)])
  /\ main refused []
     = (Return 1,
        snd (find_device refused (Some 1) [Init])
        ++ [Stderr ("libusb error: LIBUSB_ERROR_BUSY" ++ LF)%string; Exit (Some 1)]).
Proof.
  intros failing empty refused. split; [|split].
  - destruct (main_failures_exit_one failing) as [Hinit _].
    apply Hinit. discriminate.
  - destruct (main_failures_exit_one empty) as [_ [Hnone _]].
    exact (Hnone (Some 1) (snd (find_device empty (Some 1) [Init])) eq_refl eq_refl).
  - destruct (main_failures_exit_one refused) as [_ [_ Hthrown]].
    exact (Hthrown (Some 1) (-6) (snd (find_device refused (Some 1) [Init]))
             eq_refl eq_refl).
Defined.

(** A failed enumeration is not caught.  When [libusb_get_device_list]
    reports a negative count, [find_devices] throws it as an [ssize_t]; the
    handler of [main] catches [int] only (the two types differ on LP64), so
    [main] returns no exit code: the exception leaves it right after the
    enumeration call, with no diagnostic written and [libusb_exit] not
    called. *)
Theorem main_enumeration_failure_uncaught env ctx :
  env_init env = (0, ctx) ->
  fst (env_device_list env) < 0 ->
  main env [] = (Throw (ThrowSsize (fst (env_device_list env))), [Init; GetDeviceList ctx]).
Proof.
  intros Hinit Hneg. rewrite (main_cases env ctx Hinit).
  unfold find_device, bind at 1.
  destruct (env_device_list env) as [count0 devices] eqn:Hlist. cbn [fst] in *.
  rewrite (find_devices_negative env ctx vendor_id product_id [Init] count0 devices
             Hlist Hneg).
  reflexivity.
Qed.

Lemma main_enumeration_failure_uncaught_witness :
  let env := {| env_init := (0, Some 1);
                env_device_list := (-99, []);
                env_device_descriptor := fun _ => (0, Scenario.hub_descriptor);
                env_config_descriptor := fun _ => (0, Scenario.kvm_config);
                env_open := fun d => (0, Some (100 + d));
                env_status := Scenario.all_ok;
                env_error_name := Scenario.error_name |} in
  main env [] = (Throw (ThrowSsize (-99)), [Init; GetDeviceList (Some 1)]).
Proof.
  intros env.
  apply (main_enumeration_failure_uncaught env (Some 1) eq_refl).
  reflexivity.
Defined.

(** ** A complete successful run *)







